(** * Jira export pipeline ([final_script.py]): extractor, archiver,
      notifier and orchestrator.

    The script is embedded shallowly.  Python dictionaries with a fixed
    key set become records, dictionaries indexed by a run-time key become
    [gmap]s, [try]/[except] becomes an error monad threaded through an
    explicit world (blob container, queue, outbound calls, stdout).
    The third-party SDKs (jira, azure) and the [datetime]/[json] library
    calls are not code of the script: they are parameters of the model. *)

From Stdlib Require Import Ascii String ZArith.
From stdpp Require Import base strings list gmap pretty.

Local Open Scope string_scope.
Local Open Scope list_scope.
Local Open Scope Z_scope.

(** ** Characters and strings *)

Module Str.

Definition newline : ascii := "010"%char.
Definition cr : ascii := "013"%char.
Definition comma : ascii := ","%char.
Definition dquote : ascii := "034"%char.

Definition nl : string := String newline "".
Definition crlf : string := String cr (String newline "").

(** [str.lower()], restricted to the ASCII letters.  No character outside
    ASCII lowers to one of [d], [o], [n], [e], so the comparison with
    ["done"] made by the extractor is the same on UTF-8 encoded text. *)
Definition lower_char (c : ascii) : ascii :=
  let n := nat_of_ascii c in
  if ((65 <=? n) && (n <=? 90))%nat then ascii_of_nat (n + 32) else c.

Fixpoint lower (s : string) : string :=
  match s with
  | EmptyString => EmptyString
  | String c s' => String (lower_char c) (lower s')
  end.

(** [c in s] for a character. *)
Fixpoint mem (c : ascii) (s : string) : bool :=
  match s with
  | EmptyString => false
  | String d s' => if decide (c = d) then true else mem c s'
  end.

(** [p in s] for strings: [p] occurs as a contiguous substring of [s]. *)
Fixpoint contains (p s : string) : bool :=
  String.prefix p s ||
  match s with
  | EmptyString => false
  | String _ s' => contains p s'
  end.

End Str.

(** ** Exceptions and results *)

Inductive exn : Type :=
  | KeyError (key : string)
  | TypeError (msg : string)
  | ValueError (msg : string)
  | OverflowError (msg : string)
  | JIRAError (msg : string)
  | AzureError (msg : string)
  | ResourceExistsError (msg : string).

(** [str(e)].  [str(KeyError(k))] is the [repr] of the key. *)
Definition str_exn (e : exn) : string :=
  match e with
  | KeyError k => "'" +:+ k +:+ "'"
  | TypeError m | ValueError m | OverflowError m
  | JIRAError m | AzureError m | ResourceExistsError m => m
  end.

Definition result (A : Type) : Type := exn + A.

Definition rbind {A B} (r : result A) (k : A → result B) : result B :=
  match r with
  | inl e => inl e
  | inr a => k a
  end.

Fixpoint rmap {A B} (f : A → result B) (l : list A) : result (list B) :=
  match l with
  | [] => inr []
  | a :: l' =>
      rbind (f a) (λ b, rbind (rmap f l') (λ bs, inr (b :: bs)))
  end.

(** [d[key]] on a dictionary of strings. *)
Definition getitem (d : gmap string string) (key : string) : result string :=
  match d !! key with
  | Some v => inr v
  | None => inl (KeyError key)
  end.

(** ** Tracker data, as the extractor reads it *)

Record Comment := { body : string }.

Record ChangeItem := { field : string; fromString : string; toString : string }.

Record Author := { displayName : string }.

Record History := {
  author : Author;
  created : string;
  items : list ChangeItem
}.

Record Issue := {
  summary : option string;
  issue_description : option string;
  comments : list Comment;
  histories : list History
}.

(** ** TicketRecord: the [issue_data] dictionary, seven fixed keys *)

Record TicketRecord := {
  channel_id : string;
  title : string;
  original_summary : string;
  description : string;
  entries : string;
  resolved_by : string;
  resolved_timestamp : string
}.

Global Instance exn_eq_dec : EqDecision exn.
Proof. solve_decision. Defined.
Global Instance Comment_eq_dec : EqDecision Comment.
Proof. solve_decision. Defined.
Global Instance TicketRecord_eq_dec : EqDecision TicketRecord.
Proof. solve_decision. Defined.

(** ** Extractor: per-ticket derivation (lines 87-132) *)

Module Extract.

(** Lines 90-96: [concatenated_comments], the accumulator of the
    [enumerate(comments, start=1)] loop. *)
Definition entry_line (i : nat) (c : Comment) : string :=
  "# Entry " +:+ pretty i +:+ ": " +:+ body c +:+ Str.nl.

Fixpoint comments_loop (acc : string) (i : nat) (cs : list Comment) : string :=
  match cs with
  | [] => acc
  | c :: cs' => comments_loop (acc +:+ entry_line i c) (S i) cs'
  end.

Definition concatenated_comments (cs : list Comment) : string :=
  if decide (0 < length cs)%nat then comments_loop "" 1 cs else "".

(** Lines 98-110: the three loop variables of the changelog scan. *)
Record scan := {
  s_resolved_by : string;
  s_resolved_timestamp : string;
  is_status_found : bool
}.

Definition scan0 : scan :=
  {| s_resolved_by := ""; s_resolved_timestamp := ""; is_status_found := false |}.

(** Inner loop over [history.items]; stops at the first status item. *)
Fixpoint items_loop (h : History) (its : list ChangeItem) (st : scan) : scan :=
  match its with
  | [] => st
  | it :: its' =>
      if decide (field it = "status") then
        let st1 :=
          if decide (Str.lower (toString it) = "done") then
            {| s_resolved_by := displayName (author h);
               s_resolved_timestamp := created h;
               is_status_found := is_status_found st |}
          else st in
        {| s_resolved_by := s_resolved_by st1;
           s_resolved_timestamp := s_resolved_timestamp st1;
           is_status_found := true |}
      else items_loop h its' st
  end.

(** Outer loop over [issue.changelog.histories]. *)
Fixpoint histories_loop (hs : list History) (st : scan) : scan :=
  match hs with
  | [] => st
  | h :: hs' =>
      let st' := items_loop h (items h) st in
      if is_status_found st' then st' else histories_loop hs' st'
  end.

(** [x if x else ""] on an optional string. *)
Definition or_empty (o : option string) : string :=
  match o with
  | Some s => s
  | None => ""
  end.

End Extract.

(** ** CSV serialisation: [csv.writer] with the default (excel) dialect *)

Module Csv.

(** The characters that force quoting under [QUOTE_MINIMAL]: the
    delimiter, the quote character and the characters of the line
    terminator. *)
Definition special (c : ascii) : bool :=
  bool_decide (c = Str.comma) || bool_decide (c = Str.dquote) ||
  Str.mem c Str.crlf.

Fixpoint needs_quotes (s : string) : bool :=
  match s with
  | EmptyString => false
  | String c s' => special c || needs_quotes s'
  end.

(** [doublequote=True]: an embedded quote character is written twice. *)
Fixpoint escape (s : string) : string :=
  match s with
  | EmptyString => EmptyString
  | String c s' =>
      if decide (c = Str.dquote) then String c (String c (escape s'))
      else String c (escape s')
  end.

Definition write_field (s : string) : string :=
  if needs_quotes s
  then String Str.dquote (escape s +:+ String Str.dquote "")
  else s.

Fixpoint join_fields (fs : list string) : string :=
  match fs with
  | [] => ""
  | [f] => write_field f
  | f :: fs' => write_field f +:+ String Str.comma (join_fields fs')
  end.

(** [writer.writerow(row)]: the text appended to the buffer.  A row whose
    only field is empty is written as a pair of quotes. *)
Definition writerow (row : list string) : string :=
  match row with
  | [EmptyString] => String Str.dquote (String Str.dquote Str.crlf)
  | _ => join_fields row +:+ Str.crlf
  end.

Definition columns : list string :=
  ["channel_id"; "title"; "original_summary"; "description"; "entries";
   "resolved_by"; "resolved_timestamp"].

(** [[item[col] for col in columns]] on a ticket record. *)
Definition row_of (item : TicketRecord) : list string :=
  [channel_id item; title item; original_summary item; description item;
   entries item; resolved_by item; resolved_timestamp item].

(** Lines 43-48: the header row, then one row per item, in the order of
    the writes to the buffer. *)
Fixpoint rows_loop (buf : string) (items : list TicketRecord) : string :=
  match items with
  | [] => buf
  | item :: items' => rows_loop (buf +:+ writerow (row_of item)) items'
  end.

Definition csv_content (items : list TicketRecord) : string :=
  rows_loop (writerow columns) items.

(** A reader for the same dialect, used to state that the quoting is the
    standard one: fields are split at unquoted commas, rows end at an
    unquoted line terminator, a doubled quote inside quotes is one quote. *)
Inductive rstate := StartField | InField | InQuoted | QuoteInQuoted | AfterCr.

(** [read st cur row s]: [cur] is the field read so far, reversed; [row]
    the fields of the current row, reversed.  [None] on malformed input. *)
Fixpoint read (st : rstate) (cur : list ascii) (row : list string)
    (s : string) : option (list (list string)) :=
  let fld := string_of_list_ascii (rev cur) in
  match s with
  | EmptyString =>
      match st with
      | StartField => match row with [] => Some [] | _ => None end
      | _ => None
      end
  | String c s' =>
      match st with
      | StartField =>
          if decide (c = Str.dquote) then read InQuoted [] row s'
          else if decide (c = Str.comma) then read StartField [] (fld :: row) s'
          else if decide (c = Str.cr) then read AfterCr [] (fld :: row) s'
          else if decide (c = Str.newline) then None
          else read InField [c] row s'
      | InField =>
          if decide (c = Str.dquote) then None
          else if decide (c = Str.comma) then read StartField [] (fld :: row) s'
          else if decide (c = Str.cr) then read AfterCr [] (fld :: row) s'
          else if decide (c = Str.newline) then None
          else read InField (c :: cur) row s'
      | InQuoted =>
          if decide (c = Str.dquote) then read QuoteInQuoted cur row s'
          else read InQuoted (c :: cur) row s'
      | QuoteInQuoted =>
          if decide (c = Str.dquote) then read InQuoted (c :: cur) row s'
          else if decide (c = Str.comma) then read StartField [] (fld :: row) s'
          else if decide (c = Str.cr) then read AfterCr [] (fld :: row) s'
          else None
      | AfterCr =>
          if decide (c = Str.newline) then
            match read StartField [] [] s' with
            | Some rows => Some (rev row :: rows)
            | None => None
            end
          else None
      end
  end.

Definition reader (s : string) : option (list (list string)) :=
  read StartField [] [] s.

End Csv.

(** ** The world the run acts on *)

(** One outbound request made by the run. *)
Inductive call : Type :=
  | SearchIssues (jql_str : string) (maxResults : Z)
  | UploadBlob (blob_name content : string) (overwrite : bool)
  | SendMessage (content : string).

(** The payload half of a [(payload, status_code)] pair: an error
    dictionary, the archiver's success dictionary, or the record list. *)
Inductive payload : Type :=
  | ErrorPayload (error : string)
  | SuccessPayload (base_folder : string)
  | IssuesPayload (issues_data : list TicketRecord).

(** The dictionary sent to the queue (lines 187-196). *)
Record QueueMessage := {
  interaction_types : list string;
  channels : list string;
  org_id : string;
  request_id : string;
  request_mode : list string;
  requested_features : list string;
  start_date : string;
  end_date : string
}.

(** One [print] of the script. *)
Inductive line : Type :=
  | OutText (s : string)
  | OutJson (p : payload)
  | OutResult (p : payload) (status : Z)
  | OutMessageAdded (m : QueueMessage)
  | OutQueueError (e : exn).

(** What a run can change outside the process.  [blobs] is one blob
    container, the one the storage credentials of the run name, and
    [queue] is one queue: statements that compare two runs are about runs
    with the same storage credentials.  [calls] lists the outbound
    requests in the order they were made, [stdout] the lines printed. *)
Record world := {
  blobs : gmap string string;
  queue : list string;
  calls : list call;
  stdout : list line
}.

Definition record_call (c : call) (w : world) : world :=
  {| blobs := blobs w; queue := queue w;
     calls := calls w ++ [c]; stdout := stdout w |}.

(** [print(...)]: the line is appended to the output.  Writing to the
    standard output is taken to succeed. *)
Definition print (l : line) (w : world) : world :=
  {| blobs := blobs w; queue := queue w;
     calls := calls w; stdout := stdout w ++ [l] |}.

(** The two prints of lines 176-177. *)
Definition printed (p : payload) (w : world) : world :=
  print (OutJson p) (print (OutText "JIRA Issues (Formatted):") w).

Definition set_blobs (b : gmap string string) (w : world) : world :=
  {| blobs := b; queue := queue w; calls := calls w; stdout := stdout w |}.

Definition set_queue (q : list string) (w : world) : world :=
  {| blobs := blobs w; queue := q; calls := calls w; stdout := stdout w |}.

(** What the services outside the script do during one run.  Each fault
    is the exception the SDK raises at that call, if any. *)
Record Env := {
  (** [int(datetime.now().timestamp())] read at line 172 *)
  now_process : Z;
  (** [datetime.now()] read at line 71, in seconds of local time *)
  now_fetch : Z;
  (** [JIRA(server=..., basic_auth=...)] *)
  jira_connect : string → string → string → option exn;
  (** [jira.search_issues(jql_str, maxResults, expand)] *)
  jira_search : string → Z → result (list Issue);
  (** credential, service client, container client and blob client *)
  blob_client : string → string → string → string → option exn;
  (** a failure of the upload request other than a name collision *)
  blob_fault : string → option exn;
  (** credential, service client and queue client *)
  queue_client : string → string → string → string → option exn;
  (** a failure of the send request *)
  queue_fault : string → option exn
}.

(** State and error monad: a computation runs on a world and either
    raises or returns, and the effects made before a raise remain. *)
Definition M (A : Type) : Type := world → result A * world.

Definition ret {A} (a : A) : M A := λ w, (inr a, w).
Definition bind {A B} (m : M A) (k : A → M B) : M B :=
  λ w, match m w with
       | (inl e, w') => (inl e, w')
       | (inr a, w') => k a w'
       end.
Definition lift {A} (r : result A) : M A := λ w, (r, w).
Definition raise_if (f : option exn) : M unit :=
  λ w, match f with Some e => (inl e, w) | None => (inr tt, w) end.
Definition effect (f : world → world) : M unit := λ w, (inr tt, f w).

(** [try: body except Exception as e: handler(e)] *)
Definition try_except {A} (body : M A) (handler : exn → M A) : M A :=
  λ w, match body w with
       | (inl e, w') => handler e w'
       | (inr a, w') => (inr a, w')
       end.

Global Instance M_ret : MRet M := @ret.
Global Instance M_bind : MBind M := λ A B k m, bind m k.

(** [blob_client.upload_blob(data, overwrite)] on the container: a blob
    that exists is replaced only when [overwrite] is set. *)
Definition upload_blob (E : Env) (blob_name data : string) (overwrite : bool)
    : M unit :=
  effect (record_call (UploadBlob blob_name data overwrite));;
  raise_if (blob_fault E blob_name);;
  (λ w,
     match blobs w !! blob_name with
     | Some _ =>
         if overwrite
         then (inr tt, set_blobs (<[blob_name := data]> (blobs w)) w)
         else (inl (ResourceExistsError "The specified blob already exists."), w)
     | None => (inr tt, set_blobs (<[blob_name := data]> (blobs w)) w)
     end) : M unit.

(** [queue_client.send_message(content)] *)
Definition send_message (E : Env) (content : string) : M unit :=
  effect (record_call (SendMessage content));;
  raise_if (queue_fault E content);;
  effect (λ w, set_queue (queue w ++ [content]) w).

(** ** Vocabulary of the specification *)

Module Spec.

(** The first change of the status field among the changes of one
    history entry. *)
Fixpoint first_status_item (its : list ChangeItem) : option ChangeItem :=
  match its with
  | [] => None
  | it :: its' =>
      if decide (field it = "status") then Some it else first_status_item its'
  end.

(** The first status change of a ticket, in the order of its history,
    with the history entry that carries it. *)
Fixpoint first_status_change (hs : list History)
    : option (History * ChangeItem) :=
  match hs with
  | [] => None
  | h :: hs' =>
      match first_status_item (items h) with
      | Some it => Some (h, it)
      | None => first_status_change hs'
      end
  end.

Definition is_done (it : ChangeItem) : Prop :=
  Str.lower (toString it) = "done".

(** The scan state in which a status change was found in entry [h]. *)
Definition found_in (h : History) (it : ChangeItem) (st : Extract.scan)
    : Extract.scan :=
  if decide (is_done it) then
    {| Extract.s_resolved_by := displayName (author h);
       Extract.s_resolved_timestamp := created h;
       Extract.is_status_found := true |}
  else
    {| Extract.s_resolved_by := Extract.s_resolved_by st;
       Extract.s_resolved_timestamp := Extract.s_resolved_timestamp st;
       Extract.is_status_found := true |}.

(** [enumerate(l, start=i)] *)
Fixpoint enumerate {A} (i : nat) (l : list A) : list (nat * A) :=
  match l with
  | [] => []
  | a :: l' => (i, a) :: enumerate (S i) l'
  end.

(** [sep.join(l)] *)
Fixpoint join (sep : string) (l : list string) : string :=
  match l with
  | [] => ""
  | [x] => x
  | x :: l' => x +:+ sep +:+ join sep l'
  end.

(** The comments with a 1-based label in front of each, joined by
    newlines: the rendering in the words of the specification, for any
    way of writing the label of entry [N]. *)
Definition entries_joined (label : nat → string) (cs : list Comment) : string :=
  join Str.nl ((λ ic, label ic.1 +:+ body ic.2) <$> enumerate 1 cs).

(** One line [# Entry N: body] per comment, each line, the last
    included, ended by a newline. *)
Definition entries_lines (cs : list Comment) : string :=
  join "" ((λ ic, "# Entry " +:+ pretty ic.1 +:+ ": " +:+ body ic.2 +:+ Str.nl)
             <$> enumerate 1 cs).

(** The contents of the queue sends among the outbound calls. *)
Fixpoint sends (cs : list call) : list string :=
  match cs with
  | [] => []
  | SendMessage m :: cs' => m :: sends cs'
  | _ :: cs' => sends cs'
  end.

(** The upload requests among the outbound calls. *)
Fixpoint uploads (cs : list call) : list (string * string * bool) :=
  match cs with
  | [] => []
  | UploadBlob n c o :: cs' => (n, c, o) :: uploads cs'
  | _ :: cs' => uploads cs'
  end.

(** No hyphen occurs in [s]. *)
Definition hyphen_free (s : string) : Prop := Str.mem "-" s = false.

(** The sixteen ways of writing [done] in upper and lower case letters:
    the new values that equal ["done"] case-insensitively. *)
Definition done_spellings : list string :=
  ["done"; "donE"; "doNe"; "doNE"; "dOne"; "dOnE"; "dONe"; "dONE";
   "Done"; "DonE"; "DoNe"; "DoNE"; "DOne"; "DOnE"; "DONe"; "DONE"].

Definition says_done (it : ChangeItem) : Prop :=
  toString it ∈ done_spellings.

End Spec.

(** ** Reference instances of the library calls

    Executable stand-ins for [strptime]/[timestamp], [strftime] and
    [json.dumps], exact on the tracker's canonical rendering
    [YYYY-MM-DDTHH:MM:SS.fff+HHMM] and on printable ASCII text.  The
    theorems quantify over the library calls; these instances serve the
    concrete runs. *)

Module Ref.

Definition digit (c : ascii) : option Z :=
  let n := nat_of_ascii c in
  if ((48 <=? n) && (n <=? 57))%nat then Some (Z.of_nat (n - 48)) else None.

Fixpoint number (acc : Z) (cs : list ascii) : option Z :=
  match cs with
  | [] => Some acc
  | c :: cs' => d ← digit c; number (10 * acc + d) cs'
  end.

Definition digits_at (cs : list ascii) (i n : nat) : option Z :=
  number 0 (take n (drop i cs)).

Definition char_at (cs : list ascii) (i : nat) (c : ascii) : bool :=
  bool_decide (cs !! i = Some c).

Definition is_leap (y : Z) : bool :=
  bool_decide (y `mod` 4 = 0) &&
  (negb (bool_decide (y `mod` 100 = 0)) || bool_decide (y `mod` 400 = 0)).

Definition days_in_month (y m : Z) : Z :=
  if bool_decide (m = 2) then (if is_leap y then 29 else 28)
  else if bool_decide (m = 4 ∨ m = 6 ∨ m = 9 ∨ m = 11) then 30
  else 31.

(** Days from 1970-01-01 to the civil date, proleptic Gregorian. *)
Definition days_from_civil (y m d : Z) : Z :=
  let y' := if bool_decide (m ≤ 2) then y - 1 else y in
  let era := y' `div` 400 in
  let yoe := y' - era * 400 in
  let mp := if bool_decide (2 < m) then m - 3 else m + 9 in
  let doy := (153 * mp + 2) `div` 5 + d - 1 in
  let doe := yoe * 365 + yoe `div` 4 - yoe `div` 100 + doy in
  era * 146097 + doe - 719468.

Definition civil_from_days (z : Z) : Z * Z * Z :=
  let z := z + 719468 in
  let era := z `div` 146097 in
  let doe := z - era * 146097 in
  let yoe := (doe - doe `div` 1460 + doe `div` 36524 - doe `div` 146096)
               `div` 365 in
  let doy := doe - (365 * yoe + yoe `div` 4 - yoe `div` 100) in
  let mp := (5 * doy + 2) `div` 153 in
  let d := doy - (153 * mp + 2) `div` 5 + 1 in
  let m := if bool_decide (mp < 10) then mp + 3 else mp - 9 in
  let y := yoe + era * 400 in
  (if bool_decide (m ≤ 2) then y + 1 else y, m, d).

Definition in_range (lo x hi : Z) : bool :=
  bool_decide (lo ≤ x) && bool_decide (x ≤ hi).

Definition epoch_of (s : string) : option Z :=
  let cs := list_ascii_of_string s in
  if bool_decide (length cs = 28%nat) && char_at cs 4 "-" && char_at cs 7 "-"
     && char_at cs 10 "T" && char_at cs 13 ":" && char_at cs 16 ":"
     && char_at cs 19 "."
  then
    y ← digits_at cs 0 4; mo ← digits_at cs 5 2; d ← digits_at cs 8 2;
    h ← digits_at cs 11 2; mi ← digits_at cs 14 2; sec ← digits_at cs 17 2;
    f ← digits_at cs 20 3;
    sign ← (if char_at cs 23 "+" then Some 1
            else if char_at cs 23 "-" then Some (-1) else None);
    zh ← digits_at cs 24 2; zm ← digits_at cs 26 2;
    if in_range 1 y 9999 && in_range 1 mo 12
       && in_range 1 d (days_in_month y mo) && in_range 0 h 23
       && in_range 0 mi 59 && in_range 0 sec 59 && in_range 0 zm 59
    then
      let local := days_from_civil y mo d * 86400 + h * 3600 + mi * 60 + sec in
      let utc := local - sign * (zh * 3600 + zm * 60) in
      (* [int] truncates towards zero *)
      Some (if bool_decide (utc < 0) && bool_decide (0 < f) then utc + 1
            else utc)
    else None
  else None.

Definition pad (n : nat) (s : string) : string :=
  string_of_list_ascii (replicate (n - String.length s) "0"%char) +:+ s.

(** [now] counts seconds of local time from 1970-01-01T00:00:00. *)
Definition start_date_ymd (now days : Z) : result string :=
  let '(y, m, d) := civil_from_days ((now - days * 86400) `div` 86400) in
  if in_range 1 y 9999 && bool_decide (Z.abs days ≤ 999999999) then
    inr (pad 4 (pretty y) +:+ "-" +:+ pad 2 (pretty m) +:+ "-" +:+
         pad 2 (pretty d))
  else inl (OverflowError "date value out of range").

Definition json_char (c : ascii) : string :=
  if decide (c = Str.dquote) then String "\" (String c "")
  else if decide (c = "\"%char) then "\\"
  else if decide (c = Str.newline) then "\n"
  else if decide (c = Str.cr) then "\r"
  else String c "".

Fixpoint json_escape (s : string) : string :=
  match s with
  | EmptyString => EmptyString
  | String c s' => json_char c +:+ json_escape s'
  end.

Definition json_string (s : string) : string :=
  String Str.dquote (json_escape s +:+ String Str.dquote "").

Fixpoint json_items (l : list string) : string :=
  match l with
  | [] => ""
  | [x] => x
  | x :: l' => x +:+ ", " +:+ json_items l'
  end.

Definition json_list (l : list string) : string :=
  "[" +:+ json_items (json_string <$> l) +:+ "]".

Definition json_member (k v : string) : string := json_string k +:+ ": " +:+ v.

Definition json_dumps (m : QueueMessage) : string :=
  "{" +:+
  json_items
    [json_member "interaction_types" (json_list (interaction_types m));
     json_member "channels" (json_list (channels m));
     json_member "org_id" (json_string (org_id m));
     json_member "request_id" (json_string (request_id m));
     json_member "request_mode" (json_list (request_mode m));
     json_member "requested_features" (json_list (requested_features m));
     json_member "start_date" (json_string (start_date m));
     json_member "end_date" (json_string (end_date m))]
  +:+ "}".

End Ref.

(** ** Sample tickets, credentials and services *)

Module Sample.

Definition status_change (from to : string) : ChangeItem :=
  {| field := "status"; fromString := from; toString := to |}.

Definition t1 : string := "2024-01-15T10:30:00.000+0000".
Definition t2 : string := "2024-01-16T08:00:00.000+0000".

Definition by_alice_done : History :=
  {| author := {| displayName := "Alice" |}; created := t1;
     items := [status_change "todo" "Done"] |}.

Definition by_bob_in_progress : History :=
  {| author := {| displayName := "Bob" |}; created := t1;
     items := [status_change "open" "In Progress"] |}.

Definition by_carol_done : History :=
  {| author := {| displayName := "Carol" |}; created := t2;
     items := [status_change "In Progress" "done"] |}.

Definition by_nobody_done : History :=
  {| author := {| displayName := "" |}; created := t1;
     items := [status_change "todo" "done"] |}.

Definition badly_dated_done : History :=
  {| author := {| displayName := "Dan" |}; created := "yesterday";
     items := [status_change "todo" "done"] |}.

Definition ticket (cs : list Comment) (hs : list History) : Issue :=
  {| summary := Some "Printer on fire"; issue_description := None;
     comments := cs; histories := hs |}.

Definition resolved_ticket : Issue :=
  ticket [{| body := "first" |}; {| body := "second" |}] [by_alice_done].

Definition reopened_ticket : Issue :=
  ticket [] [by_bob_in_progress; by_carol_done].

Definition quiet_ticket : Issue := ticket [{| body := "a" |}] [].

Definition jira_auth : gmap string string :=
  list_to_map [("jira_url", "https://tracker.example");
               ("username", "bot"); ("token", "s3cret")].

Definition azure_auth : gmap string string :=
  list_to_map [("account_url", "https://store.example");
               ("account_name", "acct"); ("account_key", "key");
               ("container_name", "exports")].

Definition queue_auth : gmap string string :=
  list_to_map [("account_url", "https://queue.example");
               ("account_name", "acct"); ("account_key", "key");
               ("queue_name", "requests")].

(** Services without faults, whose tracker holds [issues]. *)
Definition env (issues : list Issue) : Env :=
  {| now_process := 1705314600;
     now_fetch := 1705314600;
     jira_connect := λ _ _ _, None;
     jira_search := λ _ n, inr (take (Z.to_nat n) issues);
     blob_client := λ _ _ _ _, None;
     blob_fault := λ _, None;
     queue_client := λ _ _ _ _, None;
     queue_fault := λ _, None |}.

(** The same services with a queue transport that fails. *)
Definition env_queue_down (issues : list Issue) : Env :=
  {| now_process := 1705314600;
     now_fetch := 1705314600;
     jira_connect := λ _ _ _, None;
     jira_search := λ _ n, inr (take (Z.to_nat n) issues);
     blob_client := λ _ _ _ _, None;
     blob_fault := λ _, None;
     queue_client := λ _ _ _ _, None;
     queue_fault := λ _, Some (AzureError "connection reset") |}.

Definition empty_world : world :=
  {| blobs := ∅; queue := []; calls := []; stdout := [] |}.

(** A container that already holds the blob of run [T]/[A]/[123]. *)
Definition taken_world : world :=
  {| blobs := {[ "T/interactions/incidents/jira/request-T-A-123.csv" := "old" ]};
     queue := []; calls := []; stdout := [] |}.

(** The same services with a storage account that refuses the key. *)
Definition env_storage_denied (issues : list Issue) : Env :=
  {| now_process := 1705314600;
     now_fetch := 1705314600;
     jira_connect := λ _ _ _, None;
     jira_search := λ _ n, inr (take (Z.to_nat n) issues);
     blob_client := λ _ _ _ _, None;
     blob_fault := λ _,
       Some (AzureError
               "Server failed to authenticate the request. ErrorCode:AuthenticationFailed");
     queue_client := λ _ _ _ _, None;
     queue_fault := λ _, None |}.

Definition plain_record (t d : string) : TicketRecord :=
  {| channel_id := "jira"; title := t; original_summary := "";
     description := d; entries := ""; resolved_by := "";
     resolved_timestamp := "" |}.

(** A change to done whose history entry carries no creation time. *)
Definition dateless_done : History :=
  {| author := {| displayName := "Dan" |}; created := "";
     items := [status_change "todo" "done"] |}.

(** A record whose seven fields all differ; two of them need quoting. *)
Definition full_record : TicketRecord :=
  {| channel_id := "jira"; title := "Printer, on fire";
     original_summary := "summary"; description := "It burns";
     entries := "# Entry 1: a" +:+ Str.nl;
     resolved_by := "Alice"; resolved_timestamp := "1705314600" |}.

End Sample.

(** ** The script *)

Section Script.

(** Library calls the script makes on its data.
    [epoch_of s] is [int(datetime.strptime(s, "%Y-%m-%dT%H:%M:%S.%f%z").timestamp())],
    [None] when [strptime] raises.
    [start_date_ymd now days] is
    [(now - timedelta(days=days)).strftime("%Y-%m-%d")], which raises when
    the date leaves the range of [datetime].
    [json_dumps] is [json.dumps] on the queue message. *)
Variable epoch_of : string → option Z.
Variable start_date_ymd : Z → Z → result string.
Variable json_dumps : QueueMessage → string.

(** Lines 112-119. *)
Definition convert_timestamp (resolved_timestamp : string) : result string :=
  if decide (resolved_timestamp ≠ "") then
    match epoch_of resolved_timestamp with
    | Some t => inr (pretty t)
    | None => inl (ValueError "time data does not match format")
    end
  else inr resolved_timestamp.

(** Lines 89-131: the body of the loop over the issues. *)
Definition issue_data (issue : Issue) : result TicketRecord :=
  let concatenated_comments := Extract.concatenated_comments (comments issue) in
  let st := Extract.histories_loop (histories issue) Extract.scan0 in
  rbind (convert_timestamp (Extract.s_resolved_timestamp st)) (λ ts,
    inr {| channel_id := "jira";
           title := Extract.or_empty (summary issue);
           original_summary := "";
           description := Extract.or_empty (issue_description issue);
           entries := concatenated_comments;
           resolved_by := Extract.s_resolved_by st;
           resolved_timestamp := ts |}).

(** Lines 65-80: credentials, client, query window and the search. *)
Definition jql_query_of (ymd : string) : string :=
  "created >= '" +:+ ymd +:+ "' ORDER BY created DESC".

Definition search_tickets (E : Env) (jira_auth : gmap string string)
    (total_days max_issues : Z) : M (list Issue) :=
  jira_url ← lift (getitem jira_auth "jira_url");
  jira_username ← lift (getitem jira_auth "username");
  jira_token ← lift (getitem jira_auth "token");
  raise_if (jira_connect E jira_url jira_username jira_token);;
  ymd ← lift (start_date_ymd (now_fetch E) total_days);
  let jql_query := jql_query_of ymd in
  let maxResults := Z.min max_issues 100 in
  effect (record_call (SearchIssues jql_query maxResults));;
  lift (jira_search E jql_query maxResults).

(** Lines 65-134: the body of the [try]. *)
Definition fetch_body (E : Env) (jira_auth : gmap string string)
    (total_days max_issues : Z) : M (payload * Z) :=
  issues ← search_tickets E jira_auth total_days max_issues;
  if decide (length issues = 0%nat) then
    mret (ErrorPayload "No tickets found", 404)
  else
    issues_data ← lift (rmap issue_data issues);
    mret (IssuesPayload issues_data, 200).

Definition fetch_jira_issues (E : Env) (jira_auth : gmap string string)
    (total_days max_issues : Z) : M (payload * Z) :=
  try_except (fetch_body E jira_auth total_days max_issues)
    (λ e, mret (ErrorPayload "Unable to login to JIRA", 401)).

(** Lines 45-46 iterate [csv_data] and index each element by column name:
    on a record list that gives the rows, on a dictionary the elements are
    its keys and indexing a string by a string raises. *)
Definition csv_items (csv_data : payload) : result (list TicketRecord) :=
  match csv_data with
  | IssuesPayload l => inr l
  | ErrorPayload _ | SuccessPayload _ =>
      inl (TypeError "string indices must be integers")
  end.

Definition base_folder_of (business_id : string) : string :=
  business_id +:+ "/interactions/incidents/jira".

Definition blob_name_of (business_id agent_id timestamp : string) : string :=
  base_folder_of business_id +:+ "/request-" +:+ business_id +:+ "-" +:+
  agent_id +:+ "-" +:+ timestamp +:+ ".csv".

(** Lines 16-51: the body of the [try]. *)
Definition upload_body (E : Env) (azure_auth : gmap string string)
    (business_id : string) (csv_data : payload) (timestamp agent_id : string)
    : M (payload * Z) :=
  account_url ← lift (getitem azure_auth "account_url");
  storage_account_name ← lift (getitem azure_auth "account_name");
  account_key ← lift (getitem azure_auth "account_key");
  container_name ← lift (getitem azure_auth "container_name");
  raise_if (blob_client E account_url storage_account_name account_key
           container_name);;
  let base_folder := base_folder_of business_id in
  let blob_name := blob_name_of business_id agent_id timestamp in
  items ← lift (csv_items csv_data);
  let csv_content := Csv.csv_content items in
  upload_blob E blob_name csv_content false;;
  mret (SuccessPayload base_folder, 200).

(** Lines 53-60: the handler. *)
Definition upload_error (e : exn) : payload :=
  ErrorPayload
    (if Str.contains "Authentication" (str_exn e)
     then "Azure permissions issue"
     else "New file cannot be created in Azure").

Definition upload_csv_to_azure (E : Env) (azure_auth : gmap string string)
    (business_id : string) (csv_data : payload) (timestamp agent_id : string)
    : M (payload * Z) :=
  try_except (upload_body E azure_auth business_id csv_data timestamp agent_id)
    (λ e, mret (upload_error e, 500)).

(** Lines 139-156. *)
Definition send_body (E : Env) (queue_auth : gmap string string)
    (message : QueueMessage) : M unit :=
  account_url ← lift (getitem queue_auth "account_url");
  account_name ← lift (getitem queue_auth "account_name");
  account_key ← lift (getitem queue_auth "account_key");
  queue_name ← lift (getitem queue_auth "queue_name");
  raise_if (queue_client E account_url account_name account_key queue_name);;
  send_message E (json_dumps message);;
  effect (print (OutMessageAdded message)).

Definition send_message_to_queue (E : Env) (queue_auth : gmap string string)
    (message : QueueMessage) : M unit :=
  try_except (send_body E queue_auth message)
    (λ e, effect (print (OutQueueError e))).

(** Lines 187-196. *)
Definition queue_message (business_id agent_id timestamp : string)
    (start_date end_date : Z) : QueueMessage :=
  {| interaction_types := ["incidents"];
     channels := ["jira"];
     org_id := business_id;
     request_id := agent_id +:+ "-" +:+ timestamp;
     request_mode := ["historical"];
     requested_features := ["topic-classification"];
     start_date := pretty start_date;
     end_date := pretty end_date |}.

(** Lines 159-198. *)
Definition process_issues (E : Env)
    (jira_auth azure_auth queue_auth : gmap string string)
    (total_days max_issues : Z) (business_id timestamp agent_id : string)
    : M (payload * Z) :=
  let seconds_in_a_day := 86400 in
  let total_days_seconds := total_days * seconds_in_a_day in
  let end_date := now_process E in
  let start_date := end_date - total_days_seconds in
  '(jira_issues, status_code) ←
    fetch_jira_issues E jira_auth total_days max_issues;
  effect (print (OutText "JIRA Issues (Formatted):"));;
  effect (print (OutJson jira_issues));;
  if decide (status_code ≠ 200) then mret (jira_issues, status_code)
  else
    '(response, status_code) ←
      upload_csv_to_azure E azure_auth business_id jira_issues timestamp
        agent_id;
    (if decide (status_code = 200) then
       send_message_to_queue E queue_auth
         (queue_message business_id agent_id timestamp start_date end_date)
     else mret ());;
    mret (response, status_code).

(** Lines 201-221. *)
Definition main (E : Env)
    (jira_auth azure_auth queue_auth : gmap string string)
    (total_days max_issues : Z) (business_id timestamp agent_id : string)
    : M unit :=
  '(result, status) ←
    process_issues E jira_auth azure_auth queue_auth total_days max_issues
      business_id timestamp agent_id;
  effect (print (OutResult result status)).


(** ** Proof steps shared by the stages *)

Ltac unfold_M :=
  unfold mbind, M_bind, bind, mret, M_ret, ret, lift, raise_if, effect,
    try_except in *.

Ltac destruct_steps :=
  repeat match goal with
  | |- context [getitem ?d ?k] => destruct (getitem d k) as [?|?] eqn:?
  | |- context [match ?f with Some _ => _ | None => _ end] =>
      destruct f as [?|] eqn:?
  | |- context [match ?r with inl _ => _ | inr _ => _ end] =>
      destruct r as [?|?] eqn:?
  end.

(** ** Strings *)

Lemma str_app_nil_l (s : string) : "" +:+ s = s.
Proof. reflexivity. Qed.

Lemma str_app_cons (c : ascii) (s t : string) :
  String c s +:+ t = String c (s +:+ t).
Proof. reflexivity. Qed.

Lemma str_app_nil_r (s : string) : s +:+ "" = s.
Proof.
  induction s as [|c s IH]; [done|]. by rewrite str_app_cons, IH.
Qed.

Lemma str_app_assoc (s1 s2 s3 : string) : (s1 +:+ s2) +:+ s3 = s1 +:+ (s2 +:+ s3).
Proof.
  induction s1 as [|c s1 IH]; [done|]. by rewrite !str_app_cons, IH.
Qed.

Lemma join_empty_cons (x : string) (l : list string) :
  Spec.join "" (x :: l) = x +:+ Spec.join "" l.
Proof. destruct l; simpl; [by rewrite str_app_nil_r | done]. Qed.

Lemma pretty_N_go_nonempty (x : N) (s : string) :
  s ≠ "" → pretty_N_go x s ≠ "".
Proof.
  revert s. induction (N.lt_wf_0 x) as [x _ IH]; intros s Hs.
  destruct (decide (x = 0)%N) as [->|].
  - by rewrite pretty_N_go_0.
  - rewrite pretty_N_go_step by lia.
    apply IH; [|done]. apply N.div_lt; lia.
Qed.

Lemma pretty_Z_nonempty (t : Z) : pretty t ≠ "".
Proof.
  destruct t as [|p|p]; [done | |done].
  unfold pretty, pretty_Z, pretty, pretty_positive, pretty, pretty_N.
  destruct (decide _) as [|_]; [done|].
  rewrite pretty_N_go_step by lia. by apply pretty_N_go_nonempty.
Qed.

(** ** The error and state monads *)

Lemma rmap_Forall2 {A B} (f : A → result B) (l : list A) (l' : list B) :
  rmap f l = inr l' ↔ Forall2 (λ a b, f a = inr b) l l'.
Proof.
  revert l'. induction l as [|a l IH]; intros l'; simpl.
  - split; [intros [= <-]; constructor | by inversion 1].
  - destruct (f a) as [e|b] eqn:Hfa; simpl.
    + split; [done | inversion 1; congruence].
    + destruct (rmap f l) as [e|bs] eqn:Hl; simpl.
      * split; [done|]. inversion 1 as [|? b' ? bs' Hb Hbs]; subst.
        apply IH in Hbs. done.
      * split.
        -- intros [= <-]. constructor; [done | by apply IH].
        -- inversion 1 as [|? b' ? bs' Hb Hbs]; subst.
           apply IH in Hbs. congruence.
Qed.

Lemma rmap_raises {A B} (f : A → result B) (l : list A) :
  (∃ e, rmap f l = inl e) ↔ ∃ a e, a ∈ l ∧ f a = inl e.
Proof.
  induction l as [|a l IH]; simpl.
  - split; [by intros [? ?] | intros (? & ? & []%elem_of_nil & _)].
  - destruct (f a) as [e|b] eqn:Hfa; simpl.
    + split; [|by eauto]. intros _. exists a, e. split; [left | done].
    + destruct (rmap f l) as [e|bs] eqn:Hl; simpl.
      * split; [|by eauto]. intros _.
        destruct (proj1 IH) as (a' & e' & ? & ?); [by eauto|].
        exists a', e'. split; [by right | done].
      * split; [by intros [? ?]|].
        intros (a' & e' & [->|Hin]%elem_of_cons & Ha'); [congruence|].
        destruct (proj2 IH) as [? ?]; [by eauto | done].
Qed.

(** ** Per-ticket derivation *)

Lemma comments_loop_lines (acc : string) (i : nat) (cs : list Comment) :
  Extract.comments_loop acc i cs =
  acc +:+ Spec.join ""
    ((λ ic, "# Entry " +:+ pretty ic.1 +:+ ": " +:+ body ic.2 +:+ Str.nl)
       <$> Spec.enumerate i cs).
Proof.
  revert acc i. induction cs as [|c cs IH]; intros acc i.
  - simpl. by rewrite str_app_nil_r.
  - cbn [Extract.comments_loop Spec.enumerate fmap list_fmap].
    rewrite IH, join_empty_cons, str_app_assoc. done.
Qed.

Lemma concatenated_comments_lines (cs : list Comment) :
  Extract.concatenated_comments cs = Spec.entries_lines cs.
Proof.
  unfold Extract.concatenated_comments, Spec.entries_lines.
  case_decide as Hlen.
  - by rewrite comments_loop_lines.
  - destruct cs; [done | simpl in Hlen; lia].
Qed.

Lemma items_loop_first (h : History) (its : list ChangeItem) (st : Extract.scan) :
  Extract.items_loop h its st =
  match Spec.first_status_item its with
  | Some it => Spec.found_in h it st
  | None => st
  end.
Proof.
  induction its as [|it its IH]; simpl; [done|].
  case_decide; [|done]. unfold Spec.found_in, Spec.is_done. by case_decide.
Qed.

Lemma histories_loop_first (hs : list History) (st : Extract.scan) :
  Extract.is_status_found st = false →
  Extract.histories_loop hs st =
  match Spec.first_status_change hs with
  | Some (h, it) => Spec.found_in h it st
  | None => st
  end.
Proof.
  intros Hst. induction hs as [|h hs IH]; simpl; [done|].
  rewrite items_loop_first.
  destruct (Spec.first_status_item (items h)) as [it|].
  - unfold Spec.found_in. by case_decide.
  - by rewrite Hst.
Qed.

Lemma issue_data_inv (issue : Issue) (r : TicketRecord) :
  issue_data issue = inr r →
  let st := Extract.histories_loop (histories issue) Extract.scan0 in
  channel_id r = "jira" ∧
  title r = Extract.or_empty (summary issue) ∧
  original_summary r = "" ∧
  description r = Extract.or_empty (issue_description issue) ∧
  entries r = Extract.concatenated_comments (comments issue) ∧
  resolved_by r = Extract.s_resolved_by st ∧
  convert_timestamp (Extract.s_resolved_timestamp st) = inr (resolved_timestamp r).
Proof.
  unfold issue_data. intros H.
  destruct (convert_timestamp _) as [e|ts] eqn:Hts; simpl in H; [done|].
  injection H as <-. cbv zeta. cbn [channel_id title original_summary
    description entries resolved_by resolved_timestamp]. done.
Qed.

Lemma convert_timestamp_inv (s ts : string) :
  convert_timestamp s = inr ts →
  (s = "" ∧ ts = "") ∨ (s ≠ "" ∧ ∃ t, epoch_of s = Some t ∧ ts = pretty t).
Proof.
  unfold convert_timestamp. case_decide as Hs.
  - destruct (epoch_of s) as [t|] eqn:Ht; [|done].
    intros [= <-]. right. eauto.
  - intros [= <-]. left. split; [|done]. by destruct (decide (s = "")).
Qed.

(** ** The extractor as a whole *)

(** The four ways a run of the extractor ends. *)
Lemma fetch_jira_issues_cases (E : Env) (jira_auth : gmap string string)
    (total_days max_issues : Z) (w : world) :
  match search_tickets E jira_auth total_days max_issues w with
  | (inl e, w0) =>
      fetch_jira_issues E jira_auth total_days max_issues w =
      (inr (ErrorPayload "Unable to login to JIRA", 401), w0)
  | (inr [], w0) =>
      fetch_jira_issues E jira_auth total_days max_issues w =
      (inr (ErrorPayload "No tickets found", 404), w0)
  | (inr issues, w0) =>
      match rmap issue_data issues with
      | inl e =>
          fetch_jira_issues E jira_auth total_days max_issues w =
          (inr (ErrorPayload "Unable to login to JIRA", 401), w0)
      | inr recs =>
          fetch_jira_issues E jira_auth total_days max_issues w =
          (inr (IssuesPayload recs, 200), w0)
      end
  end.
Proof.
  unfold fetch_jira_issues, fetch_body. unfold_M.
  destruct (search_tickets _ _ _ _ _) as [[e|[|issue issues]] w0]; [done..|].
  case_decide; [done|].
  by destruct (rmap issue_data (issue :: issues)).
Qed.

Lemma fetch_jira_issues_total (E : Env) (jira_auth : gmap string string)
    (total_days max_issues : Z) (w : world) :
  ∃ p code w0,
    fetch_jira_issues E jira_auth total_days max_issues w = (inr (p, code), w0).
Proof.
  pose proof (fetch_jira_issues_cases E jira_auth total_days max_issues w) as H.
  destruct (search_tickets _ _ _ _ _) as [[e|[|issue issues]] w0]; [by eauto..|].
  destruct (rmap _ _); by eauto.
Qed.

(** A success payload lists the records of the tickets found, in order. *)
Lemma fetch_jira_issues_records (E : Env) (jira_auth : gmap string string)
    (total_days max_issues : Z) (w w' : world) (recs : list TicketRecord)
    (code : Z) :
  fetch_jira_issues E jira_auth total_days max_issues w =
    (inr (IssuesPayload recs, code), w') →
  code = 200 ∧
  ∃ issues,
    search_tickets E jira_auth total_days max_issues w = (inr issues, w') ∧
    issues ≠ [] ∧
    Forall2 (λ issue r, issue_data issue = inr r) issues recs.
Proof.
  pose proof (fetch_jira_issues_cases E jira_auth total_days max_issues w) as H.
  destruct (search_tickets _ _ _ _ _) as [[e|[|issue issues]] w0];
    [congruence..|].
  destruct (rmap _ _) as [e|recs'] eqn:Hmap; rewrite H; [done|].
  intros [= <- <- <-]. split; [done|].
  exists (issue :: issues). split_and!; [done..|]. by apply rmap_Forall2.
Qed.

(** What the scan and the conversion leave in the two resolution fields
    of the record of one ticket. *)
Lemma issue_data_resolution (issue : Issue) (r : TicketRecord) :
  issue_data issue = inr r →
  match Spec.first_status_change (histories issue) with
  | Some (h, it) =>
      if decide (Spec.is_done it) then
        resolved_by r = displayName (author h) ∧
        convert_timestamp (created h) = inr (resolved_timestamp r)
      else resolved_by r = "" ∧ resolved_timestamp r = ""
  | None => resolved_by r = "" ∧ resolved_timestamp r = ""
  end.
Proof.
  intros (_ & _ & _ & _ & _ & Hby & Hts)%issue_data_inv.
  rewrite histories_loop_first in Hby, Hts by done.
  destruct (Spec.first_status_change _) as [[h it]|].
  - unfold Spec.found_in in *. case_decide; simpl in *; [done|].
    split; [done|]. by injection Hts.
  - simpl in *. split; [done|]. by injection Hts.
Qed.

(** [str.lower()] gives ["done"] on the sixteen spellings of [done] and on
    nothing else. *)
Lemma lower_char_inv (c t : ascii) :
  t ∈ ["d"; "o"; "n"; "e"]%char →
  Str.lower_char c = t →
  c = t ∨ Str.lower_char t = t ∧ c = ascii_of_nat (nat_of_ascii t - 32).
Proof.
  intros Ht Hc.
  repeat (apply elem_of_cons in Ht as [->|Ht]);
    [..|by apply elem_of_nil in Ht];
    destruct c as [[] [] [] [] [] [] [] []]; vm_compute in Hc;
    first [discriminate Hc | by left | by right].
Qed.

Lemma lower_done (s : string) :
  Str.lower s = "done" ↔ s ∈ Spec.done_spellings.
Proof.
  split.
  - destruct s as [|c1 [|c2 [|c3 [|c4 [|c5 s]]]]]; try done.
    simpl. intros [= H1 H2 H3 H4].
    apply lower_char_inv in H1 as [->|[_ ->]]; [| |by repeat constructor];
      (apply lower_char_inv in H2 as [->|[_ ->]]; [| |by repeat constructor]);
      (apply lower_char_inv in H3 as [->|[_ ->]]; [| |by repeat constructor]);
      (apply lower_char_inv in H4 as [->|[_ ->]]; [| |by repeat constructor]);
      vm_compute; by repeat constructor.
  - unfold Spec.done_spellings. intros Hs.
    repeat (apply elem_of_cons in Hs as [->|Hs]); try reflexivity.
    by apply elem_of_nil in Hs.
Qed.

Lemma is_done_says_done (it : ChangeItem) :
  Spec.is_done it ↔ Spec.says_done it.
Proof. apply lower_done. Qed.

(** C1, as amended.  In every successful extraction the record of each
    ticket takes its resolution from the first status change in the order
    of the history, and from that one only.  When the new value of that
    change is one of the sixteen spellings of [done], [resolved_by] is the
    display name of the author of its history entry, and
    [resolved_timestamp] is the decimal rendering of the epoch seconds the
    creation time of that entry converts to; an empty creation time is not
    converted and leaves [resolved_timestamp] empty.  When the new value
    is anything else both fields are empty, whatever the later entries
    hold; when the history has no status change both fields are empty.
    Hence a non-empty field means that the first status change was to
    [done]. *)
Theorem resolution_from_first_status_change
    (E : Env) (jira_auth : gmap string string) (total_days max_issues : Z)
    (w w' : world) (recs : list TicketRecord) (code : Z) :
  fetch_jira_issues E jira_auth total_days max_issues w =
    (inr (IssuesPayload recs, code), w') →
  ∃ issues,
    search_tickets E jira_auth total_days max_issues w = (inr issues, w') ∧
    Forall2 (λ issue r,
      match Spec.first_status_change (histories issue) with
      | Some (h, it) =>
          (toString it ∈ Spec.done_spellings →
             resolved_by r = displayName (author h) ∧
             (created h ≠ "" →
              ∃ t, epoch_of (created h) = Some t ∧
                   resolved_timestamp r = pretty t) ∧
             (created h = "" → resolved_timestamp r = "")) ∧
          (toString it ∉ Spec.done_spellings →
             resolved_by r = "" ∧ resolved_timestamp r = "") ∧
          (resolved_by r ≠ "" ∨ resolved_timestamp r ≠ "" →
             toString it ∈ Spec.done_spellings)
      | None => resolved_by r = "" ∧ resolved_timestamp r = ""
      end) issues recs.
Proof.
  intros (_ & issues & Hsearch & _ & Hrecs)%fetch_jira_issues_records.
  exists issues. split; [done|].
  eapply Forall2_impl; [exact Hrecs|].
  intros issue r Hr%issue_data_resolution.
  destruct (Spec.first_status_change _) as [[h it]|]; [|done].
  case_decide as Hdone.
  - apply is_done_says_done in Hdone.
    destruct Hr as [Hby Hts]. split_and!; [|done..].
    intros _. split; [done|].
    apply convert_timestamp_inv in Hts as [[Hc ->]|(Hc & t & Ht & ->)].
    + split; [done|done].
    + split; [by eauto|done].
  - assert (Hno : toString it ∉ Spec.done_spellings)
      by (by intros ?%is_done_says_done).
    destruct Hr as [-> ->]. split_and!; [done|done|]. by intros [|].
Qed.

(** C2, as amended.  In every successful extraction the [entries] field
    of the record of each ticket is one line [# Entry N: body] per comment,
    in the order of the comments, [N] counting from 1, every line ended by
    a newline (the last one too); it is the empty string for a ticket
    without comments. *)
Theorem entries_numbered_lines
    (E : Env) (jira_auth : gmap string string) (total_days max_issues : Z)
    (w w' : world) (recs : list TicketRecord) (code : Z) :
  fetch_jira_issues E jira_auth total_days max_issues w =
    (inr (IssuesPayload recs, code), w') →
  ∃ issues,
    search_tickets E jira_auth total_days max_issues w = (inr issues, w') ∧
    Forall2 (λ issue r,
      entries r = Spec.entries_lines (comments issue) ∧
      (comments issue = [] → entries r = "")) issues recs.
Proof.
  intros (_ & issues & Hsearch & _ & Hrecs)%fetch_jira_issues_records.
  exists issues. split; [done|].
  eapply Forall2_impl; [exact Hrecs|].
  intros issue r (_ & _ & _ & _ & Hentries & _)%issue_data_inv.
  rewrite Hentries, concatenated_comments_lines.
  split; [done|]. by intros ->.
Qed.

(** C9, as amended.  In every record of a successful extraction the two
    resolution fields are either both left empty or both taken from the
    history entry of the first status change, a change to one of the
    sixteen spellings of [done]: [resolved_by] is the display name of its
    author, and [resolved_timestamp] is the decimal rendering of the
    integer its creation time converts to, or the empty string when that
    creation time is the empty string.  A non-empty [resolved_timestamp]
    is the decimal rendering of an integer.  When that entry has a
    non-empty display name and a non-empty creation time, [resolved_by]
    is empty exactly when [resolved_timestamp] is. *)
Theorem resolution_fields_coupled
    (E : Env) (jira_auth : gmap string string) (total_days max_issues : Z)
    (w w' : world) (recs : list TicketRecord) (code : Z) :
  fetch_jira_issues E jira_auth total_days max_issues w =
    (inr (IssuesPayload recs, code), w') →
  ∃ issues,
    search_tickets E jira_auth total_days max_issues w = (inr issues, w') ∧
    Forall2 (λ issue r,
      (resolved_by r = "" ∧ resolved_timestamp r = "" ∨
       ∃ h it,
         Spec.first_status_change (histories issue) = Some (h, it) ∧
         toString it ∈ Spec.done_spellings ∧
         resolved_by r = displayName (author h) ∧
         (created h = "" ∧ resolved_timestamp r = "" ∨
          created h ≠ "" ∧
          ∃ t, epoch_of (created h) = Some t ∧
               resolved_timestamp r = pretty t)) ∧
      (resolved_timestamp r ≠ "" →
       ∃ t : Z, resolved_timestamp r = pretty t) ∧
      ((∀ h it,
          Spec.first_status_change (histories issue) = Some (h, it) →
          displayName (author h) ≠ "" ∧ created h ≠ "") →
       (resolved_by r = "" ↔ resolved_timestamp r = ""))) issues recs.
Proof.
  intros (_ & issues & Hsearch & _ & Hrecs)%fetch_jira_issues_records.
  exists issues. split; [done|].
  eapply Forall2_impl; [exact Hrecs|].
  intros issue r Hr%issue_data_resolution.
  destruct (Spec.first_status_change _) as [[h it]|];
    [case_decide as Hdone|].
  - destruct Hr as [Hby Hts].
    apply is_done_says_done in Hdone.
    apply convert_timestamp_inv in Hts as [[Hc Hts]|(Hc & t & Ht & Hts)].
    + split_and!.
      * right. exists h, it. split_and!; [done..|]. by left.
      * by rewrite Hts.
      * intros Hwf. by destruct (Hwf h it eq_refl) as [_ ?].
    + split_and!.
      * right. exists h, it. split_and!; [done..|]. right. by eauto.
      * intros _. by exists t.
      * intros Hwf. destruct (Hwf h it eq_refl) as [Hname _].
        rewrite Hby, Hts. split; [done|]. by intros ?%pretty_Z_nonempty.
  - destruct Hr as [-> ->]. split_and!; [by left | done | done].
  - destruct Hr as [-> ->]. split_and!; [by left | done | done].
Qed.

(** ** Frames: what each stage can change in the world *)

Lemma uploads_app (cs1 cs2 : list call) :
  Spec.uploads (cs1 ++ cs2) = Spec.uploads cs1 ++ Spec.uploads cs2.
Proof.
  induction cs1 as [|[] cs1 IH]; simpl; [done..| |done]. by rewrite IH.
Qed.

Lemma sends_app (cs1 cs2 : list call) :
  Spec.sends (cs1 ++ cs2) = Spec.sends cs1 ++ Spec.sends cs2.
Proof.
  induction cs1 as [|[] cs1 IH]; simpl; [done..|]. by rewrite IH.
Qed.

(** The search makes at most one request, a search, and touches nothing
    else. *)
Lemma search_tickets_frame (E : Env) (jira_auth : gmap string string)
    (total_days max_issues : Z) (w w0 : world) (r : result (list Issue)) :
  search_tickets E jira_auth total_days max_issues w = (r, w0) →
  blobs w0 = blobs w ∧ queue w0 = queue w ∧ stdout w0 = stdout w ∧
  (calls w0 = calls w ∨
   ∃ ymd, start_date_ymd (now_fetch E) total_days = inr ymd ∧
          calls w0 = calls w ++
            [SearchIssues (jql_query_of ymd) (Z.min max_issues 100)]).
Proof.
  unfold search_tickets. unfold_M. destruct_steps; simpl;
    intros [= <- <-]; simpl; eauto 10.
Qed.

(** The two ways a run of the archiver ends. *)
Lemma upload_csv_to_azure_cases (E : Env) (azure_auth : gmap string string)
    (business_id : string) (csv_data : payload) (timestamp agent_id : string)
    (w : world) :
  let blob_name := blob_name_of business_id agent_id timestamp in
  ∃ r code w',
    upload_csv_to_azure E azure_auth business_id csv_data timestamp agent_id w
      = (inr (r, code), w') ∧
    queue w' = queue w ∧ stdout w' = stdout w ∧
    ((code = 200 ∧ r = SuccessPayload (base_folder_of business_id) ∧
      ∃ items,
        csv_items csv_data = inr items ∧
        blobs w !! blob_name = None ∧
        blobs w' = <[blob_name := Csv.csv_content items]> (blobs w) ∧
        calls w' = calls w ++
          [UploadBlob blob_name (Csv.csv_content items) false]) ∨
     (code = 500 ∧ (∃ e, r = upload_error e) ∧
      blobs w' = blobs w ∧
      (calls w' = calls w ∨
       ∃ items,
         csv_items csv_data = inr items ∧
         calls w' = calls w ++
           [UploadBlob blob_name (Csv.csv_content items) false]))).
Proof.
  unfold upload_csv_to_azure, upload_body, upload_blob. unfold_M.
  cbv zeta. destruct_steps; simpl;
    (eexists _, _, _; split; [reflexivity|]; simpl; split_and!; [done..|]);
    first [ by right; eauto 10 | left; eauto 10 ].
Qed.

(** The two ways a run of the notifier ends. *)
Lemma send_message_to_queue_cases (E : Env) (queue_auth : gmap string string)
    (m : QueueMessage) (w : world) :
  ∃ w',
    send_message_to_queue E queue_auth m w = (inr (), w') ∧
    blobs w' = blobs w ∧
    ((send_body E queue_auth m w = (inr (), w') ∧
      queue w' = queue w ++ [json_dumps m] ∧
      calls w' = calls w ++ [SendMessage (json_dumps m)] ∧
      stdout w' = stdout w ++ [OutMessageAdded m]) ∨
     (∃ e w1,
        send_body E queue_auth m w = (inl e, w1) ∧
        w' = print (OutQueueError e) w1 ∧
        queue w' = queue w ∧
        stdout w' = stdout w ++ [OutQueueError e] ∧
        (calls w' = calls w ∨
         calls w' = calls w ++ [SendMessage (json_dumps m)]))).
Proof.
  unfold send_message_to_queue, send_body, send_message. unfold_M.
  destruct_steps; simpl;
    (eexists; split; [reflexivity|]; simpl; split; [done|]);
    first [ by left | right; eexists _, _; split_and!; by eauto ].
Qed.

(** The extractor leaves the container and the queue alone and requests
    neither an upload nor a send. *)
Lemma fetch_jira_issues_frame
    (E : Env) (jira_auth : gmap string string) (total_days max_issues : Z)
    (w w1 : world) (res : result (payload * Z)) :
  fetch_jira_issues E jira_auth total_days max_issues w = (res, w1) →
  blobs w1 = blobs w ∧ queue w1 = queue w ∧
  Spec.uploads (calls w1) = Spec.uploads (calls w) ∧
  Spec.sends (calls w1) = Spec.sends (calls w).
Proof.
  intros Hfetch.
  pose proof (fetch_jira_issues_cases E jira_auth total_days max_issues w)
    as Hcases.
  destruct (search_tickets _ _ _ _ _) as [sr w0] eqn:Hsearch.
  assert (w0 = w1) as ->.
  { destruct sr as [e|[|issue issues]];
      [| |destruct (rmap _ _)]; congruence. }
  apply search_tickets_frame in Hsearch
    as (Hb & Hq & _ & [Hc | (ymd & _ & Hc)]);
    rewrite Hc, ?uploads_app, ?sends_app; simpl;
    by rewrite ?List.app_nil_r.
Qed.

(** ** The orchestrator, stage by stage *)

Lemma process_issues_extraction_failed (E : Env)
    (jira_auth azure_auth queue_auth : gmap string string)
    (total_days max_issues : Z) (business_id timestamp agent_id : string)
    (w w1 : world) (p : payload) (code : Z) :
  fetch_jira_issues E jira_auth total_days max_issues w = (inr (p, code), w1) →
  code ≠ 200 →
  process_issues E jira_auth azure_auth queue_auth total_days max_issues
    business_id timestamp agent_id w = (inr (p, code), printed p w1).
Proof.
  intros Hfetch Hcode. unfold process_issues. unfold_M.
  rewrite Hfetch. simpl. by case_decide.
Qed.

Lemma process_issues_archive_failed (E : Env)
    (jira_auth azure_auth queue_auth : gmap string string)
    (total_days max_issues : Z) (business_id timestamp agent_id : string)
    (w w1 w2 : world) (p r : payload) (code : Z) :
  fetch_jira_issues E jira_auth total_days max_issues w = (inr (p, 200), w1) →
  upload_csv_to_azure E azure_auth business_id p timestamp agent_id
    (printed p w1) = (inr (r, code), w2) →
  code ≠ 200 →
  process_issues E jira_auth azure_auth queue_auth total_days max_issues
    business_id timestamp agent_id w = (inr (r, code), w2).
Proof.
  intros Hfetch Hupload Hcode. unfold process_issues. unfold_M.
  rewrite Hfetch. simpl.
  unfold printed in Hupload. rewrite Hupload. simpl. by case_decide.
Qed.

Lemma process_issues_archived (E : Env)
    (jira_auth azure_auth queue_auth : gmap string string)
    (total_days max_issues : Z) (business_id timestamp agent_id : string)
    (w w1 w2 w3 : world) (p r : payload) :
  fetch_jira_issues E jira_auth total_days max_issues w = (inr (p, 200), w1) →
  upload_csv_to_azure E azure_auth business_id p timestamp agent_id
    (printed p w1) = (inr (r, 200), w2) →
  send_message_to_queue E queue_auth
    (queue_message business_id agent_id timestamp
       (now_process E - total_days * 86400) (now_process E)) w2
    = (inr (), w3) →
  process_issues E jira_auth azure_auth queue_auth total_days max_issues
    business_id timestamp agent_id w = (inr (r, 200), w3).
Proof.
  intros Hfetch Hupload Hsend. unfold process_issues. unfold_M.
  rewrite Hfetch. simpl.
  unfold printed in Hupload. rewrite Hupload. simpl.
  by rewrite Hsend.
Qed.

(** ** Extractor: failures *)

Lemma issue_data_raises (issue : Issue) (h : History) (it : ChangeItem) :
  Spec.first_status_change (histories issue) = Some (h, it) →
  Spec.is_done it →
  created h ≠ "" →
  epoch_of (created h) = None →
  ∃ e, issue_data issue = inl e.
Proof.
  intros Hfirst Hdone Hcreated Hepoch. unfold issue_data.
  rewrite histories_loop_first, Hfirst by done.
  unfold Spec.found_in. case_decide; [|done]. simpl.
  unfold convert_timestamp. case_decide; [|done]. rewrite Hepoch. by eauto.
Qed.

(** C3.  The extractor never returns an empty record list, and a run in
    which the tracker query returns zero tickets ends with the error
    payload [No tickets found] and status 404, from the extractor and
    from the orchestrator alike; in such a run the container and the
    queue are left as they were and no upload and no queue send is
    requested. *)
Theorem no_tickets_is_not_found
    (E : Env) (jira_auth azure_auth queue_auth : gmap string string)
    (total_days max_issues : Z) (business_id timestamp agent_id : string)
    (w : world) :
  (∀ recs code w1,
     fetch_jira_issues E jira_auth total_days max_issues w =
       (inr (IssuesPayload recs, code), w1) → recs ≠ []) ∧
  (∀ w0,
     search_tickets E jira_auth total_days max_issues w = (inr [], w0) →
     fetch_jira_issues E jira_auth total_days max_issues w =
       (inr (ErrorPayload "No tickets found", 404), w0) ∧
     ∃ w',
       process_issues E jira_auth azure_auth queue_auth total_days max_issues
         business_id timestamp agent_id w =
         (inr (ErrorPayload "No tickets found", 404), w') ∧
       blobs w' = blobs w ∧ queue w' = queue w ∧
       Spec.uploads (calls w') = Spec.uploads (calls w) ∧
       Spec.sends (calls w') = Spec.sends (calls w)).
Proof.
  split.
  - intros recs code w1 (_ & issues & _ & Hne & Hrecs)%fetch_jira_issues_records.
    intros ->. by inversion Hrecs; subst.
  - intros w0 Hsearch.
    pose proof (fetch_jira_issues_cases E jira_auth total_days max_issues w)
      as Hfetch.
    rewrite Hsearch in Hfetch. split; [done|].
    eexists. split.
    { by apply process_issues_extraction_failed. }
    apply search_tickets_frame in Hsearch
      as (Hb & Hq & _ & [Hc | (ymd & _ & Hc)]);
      simpl; rewrite Hc, ?uploads_app, ?sends_app; simpl;
      by rewrite ?List.app_nil_r.
Qed.

(** C10.  Whatever is raised inside the body of the extractor is answered
    with the one pair [Unable to login to JIRA], 401: a failure of the
    credentials, of the client or of the search, and just as well a
    history entry of a ticket found whose first status change is to
    ["done"] and whose non-empty creation time does not convert.  The
    two runs end with the same payload and status. *)
Theorem extraction_exceptions_collapse
    (E : Env) (jira_auth : gmap string string) (total_days max_issues : Z)
    (w : world) :
  (∀ e w1,
     fetch_body E jira_auth total_days max_issues w = (inl e, w1) →
     fetch_jira_issues E jira_auth total_days max_issues w =
       (inr (ErrorPayload "Unable to login to JIRA", 401), w1)) ∧
  (∀ e w1,
     search_tickets E jira_auth total_days max_issues w = (inl e, w1) →
     fetch_jira_issues E jira_auth total_days max_issues w =
       (inr (ErrorPayload "Unable to login to JIRA", 401), w1)) ∧
  (∀ issues w0 issue h it,
     search_tickets E jira_auth total_days max_issues w = (inr issues, w0) →
     issue ∈ issues →
     Spec.first_status_change (histories issue) = Some (h, it) →
     Spec.is_done it →
     created h ≠ "" →
     epoch_of (created h) = None →
     fetch_jira_issues E jira_auth total_days max_issues w =
       (inr (ErrorPayload "Unable to login to JIRA", 401), w0)).
Proof.
  split_and!.
  - intros e w1 Hbody. unfold fetch_jira_issues. unfold_M. by rewrite Hbody.
  - intros e w1 Hsearch.
    pose proof (fetch_jira_issues_cases E jira_auth total_days max_issues w)
      as Hfetch.
    by rewrite Hsearch in Hfetch.
  - intros issues w0 issue h it Hsearch Hin Hfirst Hdone Hcreated Hepoch.
    pose proof (fetch_jira_issues_cases E jira_auth total_days max_issues w)
      as Hfetch.
    rewrite Hsearch in Hfetch.
    destruct (issue_data_raises issue h it) as [e He]; [done..|].
    destruct (proj2 (rmap_raises issue_data issues)) as [e' Hmap];
      [by eauto|].
    rewrite Hmap in Hfetch.
    destruct issues; [by apply elem_of_nil in Hin | done].
Qed.

(** ** Orchestrator *)

(** After a successful archive the notifier runs once, on the message of
    lines 187-196, and the run returns the archiver's pair. *)
Lemma orchestrator_stages
    (E : Env) (jira_auth azure_auth queue_auth : gmap string string)
    (total_days max_issues : Z) (business_id timestamp agent_id : string)
    (w w1 w2 : world) (p r : payload) :
  fetch_jira_issues E jira_auth total_days max_issues w =
    (inr (p, 200), w1) →
  upload_csv_to_azure E azure_auth business_id p timestamp agent_id
    (printed p w1) = (inr (r, 200), w2) →
  r = SuccessPayload (base_folder_of business_id) ∧
  ∃ w3,
    send_message_to_queue E queue_auth
      (queue_message business_id agent_id timestamp
         (now_process E - total_days * 86400) (now_process E)) w2
      = (inr (), w3) ∧
    process_issues E jira_auth azure_auth queue_auth total_days max_issues
      business_id timestamp agent_id w = (inr (r, 200), w3).
Proof.
  intros Hfetch Hupload.
  destruct (upload_csv_to_azure_cases E azure_auth business_id p timestamp
              agent_id (printed p w1))
    as (r' & code' & w' & Hupload' & _ & _ & Hcases).
  rewrite Hupload in Hupload'. injection Hupload' as <- <- <-.
  destruct Hcases as [(_ & -> & _)|(? & _)]; [|done]. split; [done|].
  destruct (send_message_to_queue_cases E queue_auth
              (queue_message business_id agent_id timestamp
                 (now_process E - total_days * 86400) (now_process E)) w2)
    as (w3 & Hsend & _).
  exists w3. split; [done|]. by eapply process_issues_archived.
Qed.

(** With the queue credentials in place and no fault of the client or of
    the transport, the notifier requests the send and the message is the
    last element of the queue. *)
Lemma send_message_to_queue_delivers (E : Env)
    (queue_auth : gmap string string) (m : QueueMessage) (w : world)
    (a b c d : string) :
  queue_auth !! "account_url" = Some a →
  queue_auth !! "account_name" = Some b →
  queue_auth !! "account_key" = Some c →
  queue_auth !! "queue_name" = Some d →
  queue_client E a b c d = None →
  queue_fault E (json_dumps m) = None →
  ∃ w',
    send_message_to_queue E queue_auth m w = (inr (), w') ∧
    calls w' = calls w ++ [SendMessage (json_dumps m)] ∧
    queue w' = queue w ++ [json_dumps m].
Proof.
  intros Ha Hb Hc Hd Hclient Hfault.
  unfold send_message_to_queue, send_body, send_message, getitem. unfold_M.
  rewrite Ha, Hb, Hc, Hd, Hclient. simpl. rewrite Hfault. simpl. by eauto.
Qed.

(** C4, as amended.  The orchestrator returns the pair of the first stage
    that fails.  When extraction does not return 200, its payload and
    status are the result, and the container, the queue and the upload
    and send requests are as before the run.  When extraction returns 200
    and the archiver does not, the archiver's payload and status are the
    result, the run ends in the world the archiver left, and nothing was
    sent.  When the archiver returns 200, the queue message is built and
    handed to the notifier, and the result is the archiver's success
    payload with 200: the notifier requests at most the one send of that
    message, the queue gains at most that message and only through that
    request, and with the four queue credentials in place and no fault of
    the queue client or of the transport the send is requested and the
    message is the last element of the queue. *)
Theorem orchestrator_short_circuits
    (E : Env) (jira_auth azure_auth queue_auth : gmap string string)
    (total_days max_issues : Z) (business_id timestamp agent_id : string)
    (w w1 : world) (p : payload) (code1 : Z) :
  fetch_jira_issues E jira_auth total_days max_issues w =
    (inr (p, code1), w1) →
  (code1 ≠ 200 →
     process_issues E jira_auth azure_auth queue_auth total_days max_issues
       business_id timestamp agent_id w = (inr (p, code1), printed p w1) ∧
     blobs (printed p w1) = blobs w ∧ queue (printed p w1) = queue w ∧
     Spec.uploads (calls (printed p w1)) = Spec.uploads (calls w) ∧
     Spec.sends (calls (printed p w1)) = Spec.sends (calls w)) ∧
  (code1 = 200 →
     ∀ r code2 w2,
       upload_csv_to_azure E azure_auth business_id p timestamp agent_id
         (printed p w1) = (inr (r, code2), w2) →
       (code2 ≠ 200 →
          process_issues E jira_auth azure_auth queue_auth total_days
            max_issues business_id timestamp agent_id w =
            (inr (r, code2), w2) ∧
          queue w2 = queue w ∧
          Spec.sends (calls w2) = Spec.sends (calls w)) ∧
       (code2 = 200 →
          let msg :=
            {| interaction_types := ["incidents"];
               channels := ["jira"];
               org_id := business_id;
               request_id := agent_id +:+ "-" +:+ timestamp;
               request_mode := ["historical"];
               requested_features := ["topic-classification"];
               start_date := pretty (now_process E - total_days * 86400);
               end_date := pretty (now_process E) |} in
          r = SuccessPayload (business_id +:+ "/interactions/incidents/jira") ∧
          ∃ w3,
            send_message_to_queue E queue_auth msg w2 = (inr (), w3) ∧
            process_issues E jira_auth azure_auth queue_auth total_days
              max_issues business_id timestamp agent_id w =
              (inr (r, 200), w3) ∧
            (calls w3 = calls w2 ∧ queue w3 = queue w2 ∨
             calls w3 = calls w2 ++ [SendMessage (json_dumps msg)] ∧
             (queue w3 = queue w2 ∨
              queue w3 = queue w2 ++ [json_dumps msg])) ∧
            (∀ a b c d,
               queue_auth !! "account_url" = Some a →
               queue_auth !! "account_name" = Some b →
               queue_auth !! "account_key" = Some c →
               queue_auth !! "queue_name" = Some d →
               queue_client E a b c d = None →
               queue_fault E (json_dumps msg) = None →
               calls w3 = calls w2 ++ [SendMessage (json_dumps msg)] ∧
               queue w3 = queue w2 ++ [json_dumps msg]))).
Proof.
  intros Hfetch.
  destruct (fetch_jira_issues_frame _ _ _ _ _ _ _ Hfetch)
    as (Hb & Hq & Hu & Hs).
  split.
  - intros Hcode. split; [by apply process_issues_extraction_failed|done].
  - intros ->. intros r code2 w2 Hupload.
    destruct (upload_csv_to_azure_cases E azure_auth business_id p timestamp
                agent_id (printed p w1))
      as (r' & code' & w' & Hupload' & Hq' & _ & Hcases).
    rewrite Hupload in Hupload'. injection Hupload' as <- <- <-.
    split.
    + intros Hcode. split; [by eapply process_issues_archive_failed|].
      split; [by rewrite Hq'|].
      destruct Hcases as [(? & _)|(_ & _ & _ & [Hc|(items & _ & Hc)])];
        [done|..]; rewrite Hc, ?sends_app; simpl;
        by rewrite ?List.app_nil_r.
    + intros -> msg.
      change msg with (queue_message business_id agent_id timestamp
                         (now_process E - total_days * 86400) (now_process E)).
      clear msg. set (msg := queue_message _ _ _ _ _).
      destruct Hcases as [(_ & -> & _)|(? & _)]; [|done]. split; [done|].
      destruct (send_message_to_queue_cases E queue_auth msg w2)
        as (w3 & Hsend & _ & Hscases).
      exists w3. split_and!; [done| | |].
      * by eapply process_issues_archived.
      * destruct Hscases as [(_ & Hq3 & Hc3 & _)
                            |(e & wq & _ & _ & Hq3 & _ & [Hc3|Hc3])]; eauto.
      * intros a b c d Ha Hb' Hc' Hd Hclient Hfault.
        destruct (send_message_to_queue_delivers E queue_auth msg w2 a b c d)
          as (w3' & Hsend' & Hc3 & Hq3); [done..|].
        rewrite Hsend in Hsend'. by injection Hsend' as ->.
Qed.

(** C5.  After a successful archive the result of the run is the
    archiver's success payload with status 200 whatever the notifier
    meets; when the send raises, the exception is printed, nothing reaches
    the queue, and payload and status are still those of the archiver. *)
Theorem notifier_failure_is_swallowed
    (E : Env) (jira_auth azure_auth queue_auth : gmap string string)
    (total_days max_issues : Z) (business_id timestamp agent_id : string)
    (w w1 w2 : world) (p r : payload) :
  fetch_jira_issues E jira_auth total_days max_issues w =
    (inr (p, 200), w1) →
  upload_csv_to_azure E azure_auth business_id p timestamp agent_id
    (printed p w1) = (inr (r, 200), w2) →
  r = SuccessPayload (base_folder_of business_id) ∧
  (∃ w3,
     process_issues E jira_auth azure_auth queue_auth total_days max_issues
       business_id timestamp agent_id w = (inr (r, 200), w3)) ∧
  (∀ e wq,
     send_body E queue_auth
       (queue_message business_id agent_id timestamp
          (now_process E - total_days * 86400) (now_process E)) w2
       = (inl e, wq) →
     process_issues E jira_auth azure_auth queue_auth total_days max_issues
       business_id timestamp agent_id w =
       (inr (r, 200), print (OutQueueError e) wq) ∧
     queue (print (OutQueueError e) wq) = queue w2 ∧
     blobs (print (OutQueueError e) wq) = blobs w2 ∧
     stdout (print (OutQueueError e) wq) = stdout w2 ++ [OutQueueError e]).
Proof.
  intros Hfetch Hupload.
  destruct (orchestrator_stages E jira_auth azure_auth queue_auth total_days
              max_issues business_id timestamp agent_id w w1 w2 p r
              Hfetch Hupload) as (Hr & w3 & Hsend & Hprocess).
  split; [done|]. split; [by eauto|].
  intros e wq Hbody.
  destruct (send_message_to_queue_cases E queue_auth
              (queue_message business_id agent_id timestamp
                 (now_process E - total_days * 86400) (now_process E)) w2)
    as (w3' & Hsend' & Hb & [(Hok & _)|(e' & wq' & He & -> & Hq & Hout & _)]);
    [congruence|].
  rewrite Hbody in He. injection He as <- <-.
  rewrite Hsend in Hsend'. injection Hsend' as ->. done.
Qed.

(** The three ways a run of the orchestrator ends. *)
Lemma process_issues_cases
    (E : Env) (jira_auth azure_auth queue_auth : gmap string string)
    (total_days max_issues : Z) (business_id timestamp agent_id : string)
    (w : world) :
  ∃ p code1 w1,
    fetch_jira_issues E jira_auth total_days max_issues w =
      (inr (p, code1), w1) ∧
    ((code1 ≠ 200 ∧
      process_issues E jira_auth azure_auth queue_auth total_days max_issues
        business_id timestamp agent_id w = (inr (p, code1), printed p w1)) ∨
     (code1 = 200 ∧
      ∃ r code2 w2,
        upload_csv_to_azure E azure_auth business_id p timestamp agent_id
          (printed p w1) = (inr (r, code2), w2) ∧
        ((code2 ≠ 200 ∧
          process_issues E jira_auth azure_auth queue_auth total_days
            max_issues business_id timestamp agent_id w =
            (inr (r, code2), w2)) ∨
         (code2 = 200 ∧
          ∃ w3,
            send_message_to_queue E queue_auth
              (queue_message business_id agent_id timestamp
                 (now_process E - total_days * 86400) (now_process E)) w2
              = (inr (), w3) ∧
            process_issues E jira_auth azure_auth queue_auth total_days
              max_issues business_id timestamp agent_id w =
              (inr (r, 200), w3))))).
Proof.
  destruct (fetch_jira_issues_total E jira_auth total_days max_issues w)
    as (p & code1 & w1 & Hfetch).
  exists p, code1, w1. split; [done|].
  destruct (decide (code1 = 200)) as [->|Hcode1].
  - right. split; [done|].
    destruct (upload_csv_to_azure_cases E azure_auth business_id p timestamp
                agent_id (printed p w1))
      as (r & code2 & w2 & Hupload & _).
    exists r, code2, w2. split; [done|].
    destruct (decide (code2 = 200)) as [->|Hcode2].
    + right. split; [done|].
      by destruct (orchestrator_stages E jira_auth azure_auth queue_auth
                     total_days max_issues business_id timestamp agent_id
                     w w1 w2 p r Hfetch Hupload) as (_ & ?).
    + left. split; [done|]. by eapply process_issues_archive_failed.
  - left. split; [done|]. by apply process_issues_extraction_failed.
Qed.

(** With its credentials in place and no fault of the transport, the
    notifier puts the message on the queue. *)
Lemma send_body_delivers (E : Env) (queue_auth : gmap string string)
    (m : QueueMessage) (w : world) (a b c d : string) :
  queue_auth !! "account_url" = Some a →
  queue_auth !! "account_name" = Some b →
  queue_auth !! "account_key" = Some c →
  queue_auth !! "queue_name" = Some d →
  queue_client E a b c d = None →
  queue_fault E (json_dumps m) = None →
  ∃ w', send_body E queue_auth m w = (inr (), w').
Proof.
  intros Ha Hb Hc Hd Hclient Hfault.
  unfold send_body, send_message, getitem. unfold_M.
  rewrite Ha, Hb, Hc, Hd, Hclient. simpl. rewrite Hfault. by eauto.
Qed.

Lemma upload_csv_to_azure_frame (E : Env) (azure_auth : gmap string string)
    (business_id : string) (csv_data : payload) (timestamp agent_id : string)
    (w w' : world) (res : result (payload * Z)) :
  upload_csv_to_azure E azure_auth business_id csv_data timestamp agent_id w
    = (res, w') →
  queue w' = queue w ∧ Spec.sends (calls w') = Spec.sends (calls w).
Proof.
  intros Hupload.
  destruct (upload_csv_to_azure_cases E azure_auth business_id csv_data
              timestamp agent_id w)
    as (r & code & w'' & Hupload' & Hq & _ & Hcases).
  rewrite Hupload in Hupload'. injection Hupload' as -> <-.
  split; [done|].
  destruct Hcases as [(_ & _ & items & _ & _ & _ & Hc)
                     |(_ & _ & _ & [Hc|(items & _ & Hc)])];
    rewrite Hc, ?sends_app; simpl; by rewrite ?List.app_nil_r.
Qed.

(** C7, as amended.  A run of the orchestrator returns 200 exactly when
    the archiver returned 200, and exactly then the notifier is run, once,
    on one message: interaction types [incidents], channels [jira], the
    tenant id, the request id [agent_id-timestamp], mode [historical],
    features [topic-classification], [end_date] the decimal rendering of
    the epoch seconds read by the orchestrator and [start_date] that of
    [end_date] minus [total_days * 86400]; neither depends on the clock
    reading or on the query of the extractor.  The run requests at most
    that one send and none when it does not return 200.  With the four
    queue credentials in place and no fault of the queue client or of the
    transport the send is requested and the message is on the queue after
    the run; otherwise the run may return 200 without the message having
    reached the queue. *)
Theorem one_message_per_successful_archive
    (E : Env) (jira_auth azure_auth queue_auth : gmap string string)
    (total_days max_issues : Z) (business_id timestamp agent_id : string)
    (w w' : world) (res : payload) (code : Z) :
  process_issues E jira_auth azure_auth queue_auth total_days max_issues
    business_id timestamp agent_id w = (inr (res, code), w') →
  let end_date_s := now_process E in
  let start_date_s := end_date_s - total_days * 86400 in
  let msg :=
    {| interaction_types := ["incidents"];
       channels := ["jira"];
       org_id := business_id;
       request_id := agent_id +:+ "-" +:+ timestamp;
       request_mode := ["historical"];
       requested_features := ["topic-classification"];
       start_date := pretty start_date_s;
       end_date := pretty end_date_s |} in
  (code = 200 ↔
   ∃ p w1 w2,
     fetch_jira_issues E jira_auth total_days max_issues w =
       (inr (p, 200), w1) ∧
     upload_csv_to_azure E azure_auth business_id p timestamp agent_id
       (printed p w1) = (inr (res, 200), w2) ∧
     send_message_to_queue E queue_auth msg w2 = (inr (), w')) ∧
  (code ≠ 200 →
   queue w' = queue w ∧ Spec.sends (calls w') = Spec.sends (calls w)) ∧
  (Spec.sends (calls w') = Spec.sends (calls w) ∨
   code = 200 ∧
   Spec.sends (calls w') = Spec.sends (calls w) ++ [json_dumps msg]) ∧
  (queue w' = queue w ∨
   code = 200 ∧ queue w' = queue w ++ [json_dumps msg]) ∧
  (code = 200 →
   ∀ a b c d,
     queue_auth !! "account_url" = Some a →
     queue_auth !! "account_name" = Some b →
     queue_auth !! "account_key" = Some c →
     queue_auth !! "queue_name" = Some d →
     queue_client E a b c d = None →
     queue_fault E (json_dumps msg) = None →
     queue w' = queue w ++ [json_dumps msg] ∧
     Spec.sends (calls w') = Spec.sends (calls w) ++ [json_dumps msg]).
Proof.
  intros Hprocess end_date_s start_date_s msg.
  change msg with (queue_message business_id agent_id timestamp
                     (now_process E - total_days * 86400) (now_process E)).
  clear msg. set (msg := queue_message _ _ _ _ _).
  destruct (process_issues_cases E jira_auth azure_auth queue_auth total_days
              max_issues business_id timestamp agent_id w)
    as (p & code1 & w1 & Hfetch &
        [(Hcode1 & Hp)
        |(-> & r & code2 & w2 & Hupload &
          [(Hcode2 & Hp)|(-> & w3 & Hsend & Hp)])]);
    rewrite Hp in Hprocess; injection Hprocess as <- <- <-;
    destruct (fetch_jira_issues_frame _ _ _ _ _ _ _ Hfetch)
      as (_ & Hq1 & _ & Hs1).
  - (* extraction failed *)
    split_and!; [|done|by left|by left|done].
    split; [done|]. intros (p' & w1' & w2' & Hfetch' & _). congruence.
  - (* archive failed *)
    destruct (upload_csv_to_azure_frame _ _ _ _ _ _ _ _ _ Hupload)
      as (Hq2 & Hs2). simpl in Hq2, Hs2.
    assert (queue w2 = queue w) by congruence.
    assert (Spec.sends (calls w2) = Spec.sends (calls w)) by congruence.
    split_and!; [|done|by left|by left|done].
    split; [done|]. intros (p' & w1' & w2' & Hfetch' & Hupload' & _).
    rewrite Hfetch in Hfetch'. injection Hfetch' as <- <-. congruence.
  - (* archived *)
    destruct (upload_csv_to_azure_frame _ _ _ _ _ _ _ _ _ Hupload)
      as (Hq2 & Hs2). simpl in Hq2, Hs2.
    assert (Hq : queue w2 = queue w) by congruence.
    assert (Hs : Spec.sends (calls w2) = Spec.sends (calls w)) by congruence.
    destruct (send_message_to_queue_cases E queue_auth msg w2)
      as (w3' & Hsend' & _ & Hcases).
    assert (w3' = w3) as -> by (unfold msg in Hsend'; congruence).
    clear Hsend'. split_and!.
    + split; [|done]. intros _. by exists p, w1, w2.
    + done.
    + destruct Hcases as [(_ & _ & Hc & _)|(e & wq & _ & _ & _ & _ & [Hc|Hc])];
        rewrite Hc, ?sends_app, Hs; simpl; rewrite ?List.app_nil_r; eauto.
    + destruct Hcases as [(_ & Hq3 & _)|(e & wq & _ & _ & Hq3 & _)];
        rewrite Hq3, Hq; eauto.
    + intros _ a b c d Ha Hb Hc Hd Hclient Hfault.
      destruct (send_body_delivers E queue_auth msg w2 a b c d)
        as [wd Hd']; [done..|].
      destruct Hcases as [(_ & Hq3 & Hc3 & _)|(e & wq & He & _)];
        [|congruence].
      rewrite Hq3, Hc3, sends_app, Hq, Hs. done.
Qed.

(** ** Archiver *)

(** C6.  In every run of the archiver each object that the container
    held before the run is still there with the same content, and every
    upload the run requests carries [overwrite=False].  When the computed
    path already holds an object, the archiver returns an error payload
    with status 500 and the container is unchanged. *)
Theorem archiver_never_overwrites
    (E : Env) (azure_auth : gmap string string) (business_id : string)
    (csv_data : payload) (timestamp agent_id : string) (w w' : world)
    (r : payload) (code : Z) :
  upload_csv_to_azure E azure_auth business_id csv_data timestamp agent_id w
    = (inr (r, code), w') →
  (∀ name v, blobs w !! name = Some v → blobs w' !! name = Some v) ∧
  (∀ n c o,
     (n, c, o) ∈ Spec.uploads (calls w') →
     (n, c, o) ∈ Spec.uploads (calls w) ∨
     n = blob_name_of business_id agent_id timestamp ∧ o = false) ∧
  (is_Some (blobs w !! blob_name_of business_id agent_id timestamp) →
   code = 500 ∧ (∃ msg, r = ErrorPayload msg) ∧ blobs w' = blobs w).
Proof.
  intros Hupload.
  destruct (upload_csv_to_azure_cases E azure_auth business_id csv_data
              timestamp agent_id w)
    as (r' & code' & w'' & Hupload' & _ & _ & Hcases).
  rewrite Hupload in Hupload'. injection Hupload' as <- <- <-.
  destruct Hcases as [(-> & -> & items & _ & Hfree & Hb & Hc)
                     |(-> & [e ->] & Hb & Hc)].
  - split_and!.
    + intros name v Hname. rewrite Hb.
      rewrite lookup_insert_ne; [done|]. intros <-. congruence.
    + intros n c o. rewrite Hc, uploads_app. simpl.
      intros [?|Hin%list_elem_of_singleton]%elem_of_app; [by left|].
      right. by injection Hin as -> _ ->.
    + intros [v Hv]. congruence.
  - split_and!.
    + intros name v. by rewrite Hb.
    + intros n c o.
      destruct Hc as [Hc|(items & _ & Hc)]; rewrite Hc; [by left|].
      rewrite uploads_app. simpl.
      intros [?|Hin%list_elem_of_singleton]%elem_of_app; [by left|].
      right. by injection Hin as -> _ ->.
    + intros _. split_and!; [done| |done]. unfold upload_error. by eauto.
Qed.

(** ** CSV: the writer's quoting is read back by the reader *)

Lemma special_false (c : ascii) :
  Csv.special c = false →
  c ≠ Str.dquote ∧ c ≠ Str.comma ∧ c ≠ Str.cr ∧ c ≠ Str.newline.
Proof.
  unfold Csv.special. simpl. intros H.
  repeat (case_bool_decide || case_decide); simplify_eq/=; done.
Qed.

Lemma read_unquoted (f : string) (cur : list ascii) (row : list string)
    (rest : string) :
  Csv.needs_quotes f = false →
  Csv.read Csv.InField cur row (f +:+ rest) =
  Csv.read Csv.InField (rev (list_ascii_of_string f) ++ cur) row rest.
Proof.
  revert cur. induction f as [|c f IH]; intros cur Hq; [done|].
  simpl in Hq. apply orb_false_iff in Hq as [Hc Hf].
  apply special_false in Hc as (? & ? & ? & ?).
  rewrite str_app_cons. cbn [Csv.read]. rewrite !decide_False by done.
  rewrite IH by done. simpl. by rewrite <- List.app_assoc.
Qed.

Lemma read_escaped (f : string) (cur : list ascii) (row : list string)
    (rest : string) :
  Csv.read Csv.InQuoted cur row (Csv.escape f +:+ rest) =
  Csv.read Csv.InQuoted (rev (list_ascii_of_string f) ++ cur) row rest.
Proof.
  revert cur. induction f as [|c f IH]; intros cur; [done|].
  cbn [Csv.escape]. case_decide as Hc.
  - rewrite !str_app_cons. cbn [Csv.read]. rewrite decide_True by done.
    cbn [Csv.read]. rewrite decide_True by done.
    rewrite IH. simpl. by rewrite <- List.app_assoc.
  - rewrite str_app_cons. cbn [Csv.read]. rewrite decide_False by done.
    rewrite IH. simpl. by rewrite <- List.app_assoc.
Qed.

Lemma string_of_rev_rev (f : string) :
  string_of_list_ascii (rev (rev (list_ascii_of_string f) ++ [])) = f.
Proof.
  by rewrite List.app_nil_r, rev_involutive, string_of_list_ascii_of_string.
Qed.

(** Reading one written field up to the comma that follows it. *)
Lemma read_field_comma (f : string) (row : list string) (rest : string) :
  Csv.read Csv.StartField [] row
    (Csv.write_field f +:+ String Str.comma rest) =
  Csv.read Csv.StartField [] (f :: row) rest.
Proof.
  unfold Csv.write_field. destruct (Csv.needs_quotes f) eqn:Hq.
  - rewrite str_app_cons, str_app_assoc. cbn [Csv.read].
    rewrite decide_True by done. rewrite read_escaped.
    rewrite str_app_cons. cbn [Csv.read]. rewrite decide_True by done.
    rewrite str_app_nil_l. cbn [Csv.read]. rewrite decide_False by done.
    rewrite decide_True by done. by rewrite string_of_rev_rev.
  - destruct f as [|c f].
    + rewrite str_app_nil_l. cbn [Csv.read].
      rewrite decide_False by done. by rewrite decide_True by done.
    + simpl in Hq. apply orb_false_iff in Hq as [Hc Hf].
      apply special_false in Hc as (? & ? & ? & ?).
      rewrite str_app_cons. cbn [Csv.read]. rewrite !decide_False by done.
      rewrite read_unquoted by done. cbn [Csv.read].
      rewrite decide_False by done. rewrite decide_True by done.
      f_equal. f_equal.
      change [c] with (rev (list_ascii_of_string (String c "")) ++ []).
      rewrite <- (string_of_rev_rev (String c f)). simpl.
      by rewrite !List.app_nil_r, rev_app_distr.
Qed.

(** Reading the last written field of a row and the line terminator. *)
Lemma read_field_crlf (f : string) (row : list string) (rest : string) :
  Csv.read Csv.StartField [] row (Csv.write_field f +:+ Str.crlf +:+ rest) =
  match Csv.read Csv.StartField [] [] rest with
  | Some rows => Some (rev (f :: row) :: rows)
  | None => None
  end.
Proof.
  unfold Str.crlf. rewrite !str_app_cons, str_app_nil_l.
  unfold Csv.write_field. destruct (Csv.needs_quotes f) eqn:Hq.
  - rewrite str_app_cons, str_app_assoc. cbn [Csv.read].
    rewrite decide_True by done. rewrite read_escaped.
    rewrite str_app_cons. cbn [Csv.read]. rewrite decide_True by done.
    rewrite str_app_nil_l. cbn [Csv.read]. rewrite !decide_False by done.
    rewrite !decide_True by done. by rewrite string_of_rev_rev.
  - destruct f as [|c f].
    + rewrite str_app_nil_l. cbn [Csv.read].
      rewrite !decide_False by done. by rewrite !decide_True by done.
    + simpl in Hq. apply orb_false_iff in Hq as [Hc Hf].
      apply special_false in Hc as (? & ? & ? & ?).
      rewrite str_app_cons. cbn [Csv.read]. rewrite !decide_False by done.
      rewrite read_unquoted by done. cbn [Csv.read].
      rewrite !decide_False by done. rewrite !decide_True by done.
      replace (string_of_list_ascii (rev (rev (list_ascii_of_string f) ++ [c])))
        with (String c f); [done|].
      by rewrite rev_app_distr, rev_involutive; simpl;
        rewrite string_of_list_ascii_of_string.
Qed.

Lemma read_row (fs : list string) (row : list string) (rest : string) :
  fs ≠ [] →
  Csv.read Csv.StartField [] row (Csv.join_fields fs +:+ Str.crlf +:+ rest) =
  match Csv.read Csv.StartField [] [] rest with
  | Some rows => Some ((rev row ++ fs) :: rows)
  | None => None
  end.
Proof.
  revert row. induction fs as [|f fs IH]; intros row Hne; [done|].
  destruct fs as [|f2 fs].
  - cbn [Csv.join_fields]. rewrite read_field_crlf. simpl. done.
  - change (Csv.join_fields (f :: f2 :: fs))
      with (Csv.write_field f +:+ String Str.comma (Csv.join_fields (f2 :: fs))).
    rewrite str_app_assoc, str_app_cons, read_field_comma.
    rewrite IH by done. simpl. by rewrite <- List.app_assoc.
Qed.

Lemma writerow_fields (fs : list string) :
  (2 ≤ length fs)%nat → Csv.writerow fs = Csv.join_fields fs +:+ Str.crlf.
Proof. destruct fs as [|f [|f2 fs]]; simpl; [lia..|]. by destruct f. Qed.

Lemma reader_rows (rows : list (list string)) :
  Forall (λ fs, 2 ≤ length fs)%nat rows →
  Csv.reader (Spec.join "" (Csv.writerow <$> rows)) = Some rows.
Proof.
  unfold Csv.reader. induction 1 as [|fs rows Hfs _ IH]; [done|].
  rewrite fmap_cons, join_empty_cons, writerow_fields by done.
  rewrite str_app_assoc, read_row by (intros ->; simpl in Hfs; lia).
  by rewrite IH.
Qed.

Lemma rows_loop_join (buf : string) (items : list TicketRecord) :
  Csv.rows_loop buf items =
  buf +:+ Spec.join "" (Csv.writerow <$> (Csv.row_of <$> items)).
Proof.
  revert buf. induction items as [|item items IH]; intros buf.
  - simpl. by rewrite str_app_nil_r.
  - cbn [Csv.rows_loop]. rewrite IH, !fmap_cons, join_empty_cons.
    by rewrite str_app_assoc.
Qed.

(** The archive is read back as the header row and the rows of the
    records, in order. *)
Lemma csv_content_rows (items : list TicketRecord) :
  Csv.csv_content items =
    Spec.join "" (Csv.writerow <$> (Csv.columns :: (Csv.row_of <$> items))) ∧
  Csv.reader (Csv.csv_content items) =
    Some (Csv.columns :: (Csv.row_of <$> items)).
Proof.
  assert (Heq : Csv.csv_content items =
    Spec.join "" (Csv.writerow <$> (Csv.columns :: (Csv.row_of <$> items)))).
  { unfold Csv.csv_content.
    by rewrite rows_loop_join, fmap_cons, join_empty_cons. }
  split; [done|]. rewrite Heq. apply reader_rows.
  constructor; [simpl; lia|].
  apply Forall_fmap, Forall_forall. intros item _. simpl. lia.
Qed.

Lemma blob_name_of_path (business_id agent_id timestamp : string) :
  blob_name_of business_id agent_id timestamp =
  business_id +:+ "/interactions/incidents/jira/request-" +:+ business_id
    +:+ "-" +:+ agent_id +:+ "-" +:+ timestamp +:+ ".csv".
Proof.
  unfold blob_name_of, base_folder_of. by rewrite str_app_assoc.
Qed.

(** With its credentials in place, no fault of the service and a free
    path, the archiver succeeds. *)
Lemma upload_csv_to_azure_succeeds (E : Env) (azure_auth : gmap string string)
    (business_id : string) (items : list TicketRecord)
    (timestamp agent_id : string) (w : world) (a b c d : string) :
  azure_auth !! "account_url" = Some a →
  azure_auth !! "account_name" = Some b →
  azure_auth !! "account_key" = Some c →
  azure_auth !! "container_name" = Some d →
  blob_client E a b c d = None →
  blob_fault E (blob_name_of business_id agent_id timestamp) = None →
  blobs w !! blob_name_of business_id agent_id timestamp = None →
  ∃ w',
    upload_csv_to_azure E azure_auth business_id (IssuesPayload items)
      timestamp agent_id w =
    (inr (SuccessPayload (base_folder_of business_id), 200), w').
Proof.
  intros Ha Hb Hc Hd Hclient Hfault Hfree.
  unfold upload_csv_to_azure, upload_body, upload_blob, getitem. unfold_M.
  rewrite Ha, Hb, Hc, Hd, Hclient. simpl. rewrite Hfault. simpl.
  rewrite Hfree. by eauto.
Qed.

(** C8.  A run of the archiver on a record list requests at most one
    upload, of the path
    [{tenant}/interactions/incidents/jira/request-{tenant}-{agent}-{timestamp}.csv]
    with [overwrite=False]; when it returns 200 that path was free and
    the container after the run is the container before it plus that one
    object, and otherwise the container is unchanged; with the credentials
    in place, no fault of the service and a free path it returns 200.  The
    content of the object is the header row
    [channel_id,title,original_summary,description,entries,resolved_by,resolved_timestamp]
    followed by one row per record in the order of the list, holding
    the record's seven fields in the order of the header, each row ended
    by CR LF, and a reader of the same dialect (fields split at unquoted
    commas, rows at unquoted line ends, a doubled quote inside quotes read
    as one quote) gives back the header and the seven fields of every
    record, whatever commas, line ends and quotes they contain. *)
Theorem archive_object
    (E : Env) (azure_auth : gmap string string) (business_id : string)
    (recs : list TicketRecord) (timestamp agent_id : string) (w w' : world)
    (r : payload) (code : Z) :
  upload_csv_to_azure E azure_auth business_id (IssuesPayload recs) timestamp
    agent_id w = (inr (r, code), w') →
  let blob_name :=
    business_id +:+ "/interactions/incidents/jira/request-" +:+ business_id
      +:+ "-" +:+ agent_id +:+ "-" +:+ timestamp +:+ ".csv" in
  let content := Csv.csv_content recs in
  let header :=
    ["channel_id"; "title"; "original_summary"; "description"; "entries";
     "resolved_by"; "resolved_timestamp"] in
  let row := λ rec : TicketRecord,
    [channel_id rec; title rec; original_summary rec; description rec;
     entries rec; resolved_by rec; resolved_timestamp rec] in
  (code = 200 →
   blobs w !! blob_name = None ∧
   blobs w' = <[blob_name := content]> (blobs w) ∧
   Spec.uploads (calls w') =
     Spec.uploads (calls w) ++ [(blob_name, content, false)]) ∧
  (code ≠ 200 → blobs w' = blobs w) ∧
  (Spec.uploads (calls w') = Spec.uploads (calls w) ∨
   Spec.uploads (calls w') =
     Spec.uploads (calls w) ++ [(blob_name, content, false)]) ∧
  (∀ a b c d,
     azure_auth !! "account_url" = Some a →
     azure_auth !! "account_name" = Some b →
     azure_auth !! "account_key" = Some c →
     azure_auth !! "container_name" = Some d →
     blob_client E a b c d = None →
     blob_fault E blob_name = None →
     blobs w !! blob_name = None →
     code = 200) ∧
  content = Spec.join "" (Csv.writerow <$> (header :: (row <$> recs))) ∧
  Csv.writerow header =
    "channel_id,title,original_summary,description,entries,resolved_by,resolved_timestamp"
      +:+ Str.crlf ∧
  Csv.reader content = Some (header :: (row <$> recs)).
Proof.
  intros Hupload blob_name content header row.
  assert (Hname : blob_name = blob_name_of business_id agent_id timestamp)
    by (by rewrite blob_name_of_path).
  clearbody blob_name. subst blob_name.
  destruct (upload_csv_to_azure_cases E azure_auth business_id
              (IssuesPayload recs) timestamp agent_id w)
    as (r' & code' & w'' & Hupload' & _ & _ & Hcases).
  rewrite Hupload in Hupload'. injection Hupload' as <- <- <-.
  destruct (csv_content_rows recs) as [Hjoin Hread].
  split_and!; [| | | |exact Hjoin|reflexivity|exact Hread].
  - intros ->.
    destruct Hcases as [(_ & _ & items & [= <-] & Hfree & Hb & Hc)|(? & _)];
      [|done].
    by rewrite Hc, uploads_app.
  - intros Hcode. by destruct Hcases as [(? & _)|(_ & _ & Hb & _)].
  - destruct Hcases as [(_ & _ & items & [= <-] & _ & _ & Hc)
                       |(_ & _ & _ & [Hc|(items & [= <-] & Hc)])];
      rewrite Hc, ?uploads_app; simpl; rewrite ?List.app_nil_r; eauto.
  - intros a b c d Ha Hb Hc Hd Hclient Hfault Hfree.
    destruct (upload_csv_to_azure_succeeds E azure_auth business_id recs
                timestamp agent_id w a b c d) as [w2 Hok]; [done..|].
    congruence.
Qed.

(** ** Further properties of the extractor *)

(** X1.  The extractor never raises.  It returns one of three pairs: a
    non-empty record list with 200, [No tickets found] with 404, or
    [Unable to login to JIRA] with 401; and it returns 404 exactly when
    the search went through and found no ticket. *)
Theorem fetch_jira_issues_outcomes
    (E : Env) (jira_auth : gmap string string) (total_days max_issues : Z)
    (w : world) :
  ∃ p code w',
    fetch_jira_issues E jira_auth total_days max_issues w =
      (inr (p, code), w') ∧
    ((∃ recs, p = IssuesPayload recs ∧ recs ≠ [] ∧ code = 200) ∨
     (p = ErrorPayload "No tickets found" ∧ code = 404) ∨
     (p = ErrorPayload "Unable to login to JIRA" ∧ code = 401)) ∧
    (code = 404 ↔
     search_tickets E jira_auth total_days max_issues w = (inr [], w')).
Proof.
  pose proof (fetch_jira_issues_cases E jira_auth total_days max_issues w)
    as Hcases.
  destruct (search_tickets _ _ _ _ _) as [[e|[|issue issues]] w0] eqn:Hsearch.
  - eexists _, _, _. split; [exact Hcases|]. split; [by eauto|].
    split; [done|]. by intros [= ].
  - eexists _, _, _. split; [exact Hcases|]. split; [by eauto|]. done.
  - destruct (rmap issue_data (issue :: issues)) as [e|recs] eqn:Hmap.
    + eexists _, _, _. split; [exact Hcases|]. split; [by eauto|].
      split; [done|]. by intros [= ].
    + eexists _, _, _. split; [exact Hcases|]. split.
      * left. exists recs. split_and!; [done| |done].
        apply rmap_Forall2 in Hmap. intros ->. by inversion Hmap.
      * split; [done|]. by intros [= ].
Qed.

(** X2.  A success payload has one record per ticket found, in the order
    of the search result; every record carries the channel [jira] and an
    empty [original_summary], and its [title] and [description] are the
    ticket's summary and description, or the empty string where the
    ticket has none. *)
Theorem records_follow_tickets
    (E : Env) (jira_auth : gmap string string) (total_days max_issues : Z)
    (w w' : world) (recs : list TicketRecord) (code : Z) :
  fetch_jira_issues E jira_auth total_days max_issues w =
    (inr (IssuesPayload recs, code), w') →
  ∃ issues,
    search_tickets E jira_auth total_days max_issues w = (inr issues, w') ∧
    length recs = length issues ∧
    Forall2 (λ issue r,
      channel_id r = "jira" ∧
      original_summary r = "" ∧
      title r = match summary issue with Some s => s | None => "" end ∧
      description r =
        match issue_description issue with Some s => s | None => "" end)
      issues recs.
Proof.
  intros (_ & issues & Hsearch & _ & Hrecs)%fetch_jira_issues_records.
  exists issues. split_and!; [done|by erewrite <- Forall2_length|].
  eapply Forall2_impl; [exact Hrecs|].
  by intros issue r (? & ? & ? & ? & _)%issue_data_inv.
Qed.

(** X3.  A run of the extractor makes at most one request, a search
    whose query is [created >= 'DATE' ORDER BY created DESC] for the
    formatted start date and whose [maxResults] is the smaller of the
    requested maximum and 100. *)
Theorem search_request_capped
    (E : Env) (jira_auth : gmap string string) (total_days max_issues : Z)
    (w : world) :
  ∃ res w',
    fetch_jira_issues E jira_auth total_days max_issues w = (res, w') ∧
    (calls w' = calls w ∨
     ∃ ymd n,
       start_date_ymd (now_fetch E) total_days = inr ymd ∧
       n ≤ 100 ∧ n ≤ max_issues ∧ (n = max_issues ∨ n = 100) ∧
       calls w' = calls w ++
         [SearchIssues
            ("created >= '" +:+ ymd +:+ "' ORDER BY created DESC") n]).
Proof.
  destruct (fetch_jira_issues E jira_auth total_days max_issues w)
    as [res w'] eqn:Hfetch.
  exists res, w'. split; [done|].
  pose proof (fetch_jira_issues_cases E jira_auth total_days max_issues w)
    as Hcases.
  destruct (search_tickets _ _ _ _ _) as [sr w0] eqn:Hsearch.
  assert (w0 = w') as ->.
  { destruct sr as [e|[|issue issues]];
      [| |destruct (rmap _ _)]; congruence. }
  apply search_tickets_frame in Hsearch
    as (_ & _ & _ & [Hc | (ymd & Hymd & Hc)]); [by left|].
  right. exists ymd, (Z.min max_issues 100).
  split_and!; [done|lia|lia|lia|done].
Qed.

(** X4.  When the tracker credentials lack one of the keys [jira_url],
    [username], [token], the extractor answers [Unable to login to JIRA]
    with 401 and nothing is requested: the world is left as it was. *)
Theorem missing_tracker_credential
    (E : Env) (jira_auth : gmap string string) (total_days max_issues : Z)
    (w : world) (key : string) :
  key ∈ ["jira_url"; "username"; "token"] →
  jira_auth !! key = None →
  fetch_jira_issues E jira_auth total_days max_issues w =
    (inr (ErrorPayload "Unable to login to JIRA", 401), w).
Proof.
  intros Hkey Hnone.
  unfold fetch_jira_issues, fetch_body, search_tickets, getitem. unfold_M.
  repeat (apply elem_of_cons in Hkey as [->|Hkey]);
    [..|by apply elem_of_nil in Hkey];
    rewrite ?Hnone; repeat (case_match; simplify_eq/=); done.
Qed.

(** ** Further properties of the archiver *)

Lemma prefix_spec (p s : string) :
  String.prefix p s = true ↔ ∃ b, s = p +:+ b.
Proof.
  revert s. induction p as [|c p IH]; intros s.
  - destruct s; simpl; (split; [by eauto|done]).
  - destruct s as [|d s]; simpl; [split; [done|by intros [? ?]]|].
    destruct (ascii_dec c d) as [->|Hne].
    + rewrite IH. split; intros [b Hb]; exists b.
      * by rewrite str_app_cons, <- Hb.
      * rewrite str_app_cons in Hb. by injection Hb.
    + split; [done|]. intros [b Hb]. rewrite str_app_cons in Hb.
      injection Hb as -> _. done.
Qed.

(** [Str.contains] is Python's [in] on strings. *)
Lemma contains_spec (p s : string) :
  Str.contains p s = true ↔ ∃ a b, s = a +:+ p +:+ b.
Proof.
  induction s as [|c s IH]; cbn [Str.contains].
  - rewrite orb_false_r, prefix_spec. split.
    + intros [b Hb]. by exists "", b.
    + intros (a & b & Hab). destruct a; [by exists b|done].
  - rewrite orb_true_iff, prefix_spec, IH. split.
    + intros [[b Hb]|(a & b & Hab)].
      * by exists "", b.
      * exists (String c a), b. by rewrite str_app_cons, <- Hab.
    + intros ([|d a] & b & Hab).
      * left. by exists b.
      * right. rewrite str_app_cons in Hab. injection Hab as _ Hab.
        by exists a, b.
Qed.

Lemma upload_error_text (e : exn) :
  upload_error e = ErrorPayload "Azure permissions issue" ∨
  upload_error e = ErrorPayload "New file cannot be created in Azure".
Proof. unfold upload_error. destruct (Str.contains _ _); eauto. Qed.

(** X5.  Whatever is raised inside the archiver is answered with status
    500 and one of two texts: [Azure permissions issue] exactly when the
    text of the exception contains [Authentication], and [New file cannot
    be created in Azure] otherwise.  The world stays as the exception
    left it. *)
Theorem archiver_error_text
    (E : Env) (azure_auth : gmap string string) (business_id : string)
    (csv_data : payload) (timestamp agent_id : string) (w w1 : world)
    (e : exn) :
  upload_body E azure_auth business_id csv_data timestamp agent_id w =
    (inl e, w1) →
  ∃ msg,
    upload_csv_to_azure E azure_auth business_id csv_data timestamp agent_id w
      = (inr (ErrorPayload msg, 500), w1) ∧
    (msg = "Azure permissions issue" ∨
     msg = "New file cannot be created in Azure") ∧
    (msg = "Azure permissions issue" ↔
     ∃ a b, str_exn e = a +:+ "Authentication" +:+ b).
Proof.
  intros Hbody. unfold upload_csv_to_azure. unfold_M. rewrite Hbody.
  unfold upload_error.
  destruct (Str.contains "Authentication" (str_exn e)) eqn:Hin.
  - eexists. split; [done|]. split; [by left|].
    split; [intros _; by apply contains_spec|done].
  - eexists. split; [done|]. split; [by right|].
    split; [done|]. intros Hsub%contains_spec. congruence.
Qed.

(** X6.  When the storage credentials lack one of the keys [account_url],
    [account_name], [account_key], [container_name], the archiver answers
    [New file cannot be created in Azure] with 500 and requests nothing:
    the world is left as it was. *)
Theorem missing_storage_credential
    (E : Env) (azure_auth : gmap string string) (business_id : string)
    (csv_data : payload) (timestamp agent_id : string) (w : world)
    (key : string) :
  key ∈ ["account_url"; "account_name"; "account_key"; "container_name"] →
  azure_auth !! key = None →
  upload_csv_to_azure E azure_auth business_id csv_data timestamp agent_id w =
    (inr (ErrorPayload "New file cannot be created in Azure", 500), w).
Proof.
  intros Hkey Hnone.
  unfold upload_csv_to_azure, upload_body, getitem. unfold_M.
  repeat (apply elem_of_cons in Hkey as [->|Hkey]);
    [..|by apply elem_of_nil in Hkey];
    rewrite ?Hnone;
    destruct (azure_auth !! "account_url") as [?|] eqn:?; simplify_eq/=;
      try reflexivity;
    destruct (azure_auth !! "account_name") as [?|] eqn:?; simplify_eq/=;
      try reflexivity;
    destruct (azure_auth !! "account_key") as [?|] eqn:?; simplify_eq/=;
      try reflexivity;
    destruct (azure_auth !! "container_name") as [?|] eqn:?; simplify_eq/=;
      reflexivity.
Qed.

(** X7.  A collision is reported as [New file cannot be created in
    Azure]: with the credentials in place and no fault of the service, an
    upload to a path that holds an object makes the request, gets the
    refusal, and answers that text with 500, the object untouched. *)
Theorem collision_error_text
    (E : Env) (azure_auth : gmap string string) (business_id : string)
    (items : list TicketRecord) (timestamp agent_id : string) (w : world)
    (a b c d old : string) :
  azure_auth !! "account_url" = Some a →
  azure_auth !! "account_name" = Some b →
  azure_auth !! "account_key" = Some c →
  azure_auth !! "container_name" = Some d →
  blob_client E a b c d = None →
  blob_fault E (blob_name_of business_id agent_id timestamp) = None →
  blobs w !! blob_name_of business_id agent_id timestamp = Some old →
  ∃ w',
    upload_csv_to_azure E azure_auth business_id (IssuesPayload items)
      timestamp agent_id w =
      (inr (ErrorPayload "New file cannot be created in Azure", 500), w') ∧
    blobs w' = blobs w ∧
    calls w' = calls w ++
      [UploadBlob (blob_name_of business_id agent_id timestamp)
         (Csv.csv_content items) false].
Proof.
  intros Ha Hb Hc Hd Hclient Hfault Htaken.
  unfold upload_csv_to_azure, upload_body, upload_blob, getitem. unfold_M.
  rewrite Ha, Hb, Hc, Hd, Hclient. simpl. rewrite Hfault. simpl.
  rewrite Htaken. eexists. split; [reflexivity|]. done.
Qed.

(** X8.  After an upload that returned 200 the object is in the
    container, and every later run of the archiver with the same storage
    credentials for the same tenant, agent and timestamp, whatever the
    records and the state of the services, returns an error payload with
    500 and leaves the container as it is. *)
Theorem archive_twice
    (E : Env) (azure_auth : gmap string string) (business_id : string)
    (recs : list TicketRecord) (timestamp agent_id : string) (w w1 : world)
    (r : payload) :
  upload_csv_to_azure E azure_auth business_id (IssuesPayload recs) timestamp
    agent_id w = (inr (r, 200), w1) →
  blobs w1 !! blob_name_of business_id agent_id timestamp =
    Some (Csv.csv_content recs) ∧
  ∀ E' csv_data',
    ∃ msg w2,
      upload_csv_to_azure E' azure_auth business_id csv_data' timestamp
        agent_id w1 = (inr (ErrorPayload msg, 500), w2) ∧
      blobs w2 = blobs w1.
Proof.
  intros Hupload.
  destruct (upload_csv_to_azure_cases E azure_auth business_id
              (IssuesPayload recs) timestamp agent_id w)
    as (r' & code' & w'' & Hupload' & _ & _ & Hcases).
  rewrite Hupload in Hupload'. injection Hupload' as <- <- <-.
  destruct Hcases as [(_ & _ & items & [= <-] & _ & Hb & _)|(? & _)];
    [|done].
  assert (Hheld : blobs w1 !! blob_name_of business_id agent_id timestamp =
                  Some (Csv.csv_content recs))
    by (by rewrite Hb, lookup_insert_eq).
  split; [done|]. intros E' csv_data'.
  destruct (upload_csv_to_azure_cases E' azure_auth business_id csv_data'
              timestamp agent_id w1)
    as (r2 & code2 & w2 & Hupload2 & _ & _ & Hcases2).
  destruct Hcases2 as [(_ & _ & items & _ & Hfree & _)
                      |(-> & [e ->] & Hb2 & _)]; [congruence|].
  unfold upload_error in *. by eauto.
Qed.

(** ** Further properties of the orchestrator and the notifier *)

Lemma search_tickets_found (E : Env) (jira_auth : gmap string string)
    (total_days max_issues : Z) (w w0 : world) (issues : list Issue) :
  search_tickets E jira_auth total_days max_issues w = (inr issues, w0) →
  ∃ q n, calls w0 = calls w ++ [SearchIssues q n].
Proof.
  unfold search_tickets. unfold_M. destruct_steps; simpl;
    intros ?; simplify_eq/=; eauto.
Qed.

Lemma fetch_jira_issues_calls
    (E : Env) (jira_auth : gmap string string) (total_days max_issues : Z)
    (w w1 : world) (p : payload) (code : Z) :
  fetch_jira_issues E jira_auth total_days max_issues w =
    (inr (p, code), w1) →
  stdout w1 = stdout w ∧
  (calls w1 = calls w ∨ ∃ q n, calls w1 = calls w ++ [SearchIssues q n]) ∧
  (code = 200 → ∃ q n, calls w1 = calls w ++ [SearchIssues q n]).
Proof.
  intros Hfetch.
  pose proof (fetch_jira_issues_cases E jira_auth total_days max_issues w)
    as Hcases.
  destruct (search_tickets _ _ _ _ _) as [sr w0] eqn:Hsearch.
  assert (w0 = w1) as ->.
  { destruct sr as [e|[|issue issues]];
      [| |destruct (rmap _ _)]; congruence. }
  pose proof Hsearch as (_ & _ & Hout & Hcalls)%search_tickets_frame.
  split; [done|]. split.
  - destruct Hcalls as [?|(ymd & _ & ?)]; eauto.
  - intros ->. destruct sr as [e|issues]; [congruence|].
    by eapply search_tickets_found.
Qed.

(** X9.  The orchestrator never returns the record list.  The pair it
    returns is one of: [Unable to login to JIRA] with 401, [No tickets
    found] with 404, [Azure permissions issue] or [New file cannot be
    created in Azure] with 500, or the success payload naming the folder
    [{tenant}/interactions/incidents/jira] with 200. *)
Theorem process_issues_outcomes
    (E : Env) (jira_auth azure_auth queue_auth : gmap string string)
    (total_days max_issues : Z) (business_id timestamp agent_id : string)
    (w w' : world) (p : payload) (code : Z) :
  process_issues E jira_auth azure_auth queue_auth total_days max_issues
    business_id timestamp agent_id w = (inr (p, code), w') →
  (p = ErrorPayload "Unable to login to JIRA" ∧ code = 401) ∨
  (p = ErrorPayload "No tickets found" ∧ code = 404) ∨
  ((p = ErrorPayload "Azure permissions issue" ∨
    p = ErrorPayload "New file cannot be created in Azure") ∧
   code = 500) ∨
  (p = SuccessPayload (business_id +:+ "/interactions/incidents/jira") ∧
   code = 200).
Proof.
  intros Hrun.
  destruct (process_issues_cases E jira_auth azure_auth queue_auth total_days
              max_issues business_id timestamp agent_id w)
    as (p0 & code1 & w1 & Hfetch &
        [(Hcode1 & Hp)
        |(-> & r & code2 & w2 & Hupload &
          [(Hcode2 & Hp)|(-> & w3 & Hsend & Hp)])]);
    rewrite Hp in Hrun; injection Hrun as <- <- <-.
  - pose proof (fetch_jira_issues_cases E jira_auth total_days max_issues w)
      as Hcases.
    destruct (search_tickets _ _ _ _ _) as [[e|[|issue issues]] w0];
      [| |destruct (rmap _ _)]; rewrite Hfetch in Hcases;
      simplify_eq; by eauto.
  - destruct (upload_csv_to_azure_cases E azure_auth business_id p0 timestamp
                agent_id (printed p0 w1))
      as (r' & code' & w'' & Hupload' & _ & _ & Hcases).
    rewrite Hupload in Hupload'. injection Hupload' as <- <- <-.
    destruct Hcases as [(? & _)|(-> & [e ->] & _)]; [done|].
    right; right; left. split; [apply upload_error_text|done].
  - destruct (upload_csv_to_azure_cases E azure_auth business_id p0 timestamp
                agent_id (printed p0 w1))
      as (r' & code' & w'' & Hupload' & _ & _ & Hcases).
    rewrite Hupload in Hupload'. injection Hupload' as <- <- <-.
    destruct Hcases as [(_ & -> & _)|(? & _)]; [|done].
    by right; right; right.
Qed.

(** Everything a run of the orchestrator does to the world, by the stage
    at which it ends. *)
Lemma process_issues_trace
    (E : Env) (jira_auth azure_auth queue_auth : gmap string string)
    (total_days max_issues : Z) (business_id timestamp agent_id : string)
    (w : world) :
  let blob_name := blob_name_of business_id agent_id timestamp in
  let msg := queue_message business_id agent_id timestamp
               (now_process E - total_days * 86400) (now_process E) in
  ∃ p code1 w1,
    fetch_jira_issues E jira_auth total_days max_issues w =
      (inr (p, code1), w1) ∧
    blobs w1 = blobs w ∧ queue w1 = queue w ∧ stdout w1 = stdout w ∧
    ((code1 ≠ 200 ∧
      (calls w1 = calls w ∨ ∃ q n, calls w1 = calls w ++ [SearchIssues q n]) ∧
      process_issues E jira_auth azure_auth queue_auth total_days max_issues
        business_id timestamp agent_id w = (inr (p, code1), printed p w1)) ∨
     (code1 = 200 ∧
      ∃ q n r code2 w2,
        calls w1 = calls w ++ [SearchIssues q n] ∧
        upload_csv_to_azure E azure_auth business_id p timestamp agent_id
          (printed p w1) = (inr (r, code2), w2) ∧
        queue w2 = queue w ∧
        stdout w2 =
          stdout w ++ [OutText "JIRA Issues (Formatted):"; OutJson p] ∧
        ((code2 ≠ 200 ∧ blobs w2 = blobs w ∧
          (calls w2 = calls w ++ [SearchIssues q n] ∨
           ∃ content,
             calls w2 = calls w ++
               [SearchIssues q n; UploadBlob blob_name content false]) ∧
          process_issues E jira_auth azure_auth queue_auth total_days
            max_issues business_id timestamp agent_id w =
            (inr (r, code2), w2)) ∨
         (code2 = 200 ∧
          ∃ items w3,
            p = IssuesPayload items ∧
            blobs w !! blob_name = None ∧
            blobs w2 = <[blob_name := Csv.csv_content items]> (blobs w) ∧
            calls w2 = calls w ++
              [SearchIssues q n;
               UploadBlob blob_name (Csv.csv_content items) false] ∧
            send_message_to_queue E queue_auth msg w2 = (inr (), w3) ∧
            blobs w3 = blobs w2 ∧
            ((queue w3 = queue w ++ [json_dumps msg] ∧
              calls w3 = calls w2 ++ [SendMessage (json_dumps msg)] ∧
              stdout w3 = stdout w2 ++ [OutMessageAdded msg]) ∨
             (∃ e,
                queue w3 = queue w ∧
                stdout w3 = stdout w2 ++ [OutQueueError e] ∧
                (calls w3 = calls w2 ∨
                 calls w3 = calls w2 ++ [SendMessage (json_dumps msg)]))) ∧
            process_issues E jira_auth azure_auth queue_auth total_days
              max_issues business_id timestamp agent_id w =
              (inr (r, 200), w3))))).
Proof.
  intros blob_name msg.
  destruct (process_issues_cases E jira_auth azure_auth queue_auth total_days
              max_issues business_id timestamp agent_id w)
    as (p & code1 & w1 & Hfetch & Hcases).
  destruct (fetch_jira_issues_frame _ _ _ _ _ _ _ Hfetch)
    as (Hb1 & Hq1 & _ & _).
  destruct (fetch_jira_issues_calls _ _ _ _ _ _ _ _ Hfetch)
    as (Ho1 & Hc1 & Hc1').
  exists p, code1, w1. split_and!; [done..|].
  destruct Hcases as [(Hcode1 & Hp)
                     |(-> & r & code2 & w2 & Hupload & Hcases)];
    [by left|].
  right. split; [done|].
  destruct (Hc1' eq_refl) as (q & n & Hcalls1).
  exists q, n, r, code2, w2.
  destruct (upload_csv_to_azure_cases E azure_auth business_id p timestamp
              agent_id (printed p w1))
    as (r' & code' & w' & Hupload' & Hq2 & Ho2 & Hucases).
  rewrite Hupload in Hupload'. injection Hupload' as <- <- <-.
  simpl in Hq2, Ho2.
  split_and!; [done|done|congruence| |].
  { rewrite Ho2, Ho1, <- List.app_assoc. done. }
  destruct Hcases as [(Hcode2 & Hp)|(-> & w3 & Hsend & Hp)].
  - left. destruct Hucases as [(? & _)|(_ & _ & Hb2 & Hc2)]; [done|].
    simpl in Hb2, Hc2. split_and!; [done|congruence| |done].
    destruct Hc2 as [Hc2|(items & _ & Hc2)]; rewrite Hc2, Hcalls1.
    + by left.
    + right. eexists. by rewrite <- List.app_assoc.
  - right. split; [done|].
    destruct Hucases as [(_ & _ & items & Hitems & Hfree & Hb2 & Hc2)
                        |(? & _)]; [|done].
    simpl in Hfree, Hb2, Hc2.
    assert (p = IssuesPayload items) as ->.
    { destruct p; simpl in Hitems; congruence. }
    exists items, w3.
    destruct (send_message_to_queue_cases E queue_auth msg w2)
      as (w3' & Hsend' & Hb3 & Hscases).
    assert (w3' = w3) as -> by (unfold msg in Hsend'; congruence).
    split_and!; [done| | | |done|done| |done].
    { unfold blob_name. by rewrite <- Hb1. }
    { unfold blob_name. by rewrite Hb2, Hb1. }
    { rewrite Hc2, Hcalls1, <- List.app_assoc. done. }
    destruct Hscases as [(_ & Hq3 & Hc3 & Ho3)
                        |(e & wq & _ & _ & Hq3 & Ho3 & Hc3)].
    + left. split_and!; [congruence|done|done].
    + right. exists e. split_and!; [congruence|done|done].
Qed.

(** X10.  The requests of a run are made in the order of the stages and
    each at most once: what a run adds to the outbound calls is an
    initial part of [search; upload; send], the upload for the computed
    path with [overwrite=False] and the send carrying the queue
    message. *)
Theorem calls_in_stage_order
    (E : Env) (jira_auth azure_auth queue_auth : gmap string string)
    (total_days max_issues : Z) (business_id timestamp agent_id : string)
    (w : world) :
  ∃ res w' q n content cs,
    process_issues E jira_auth azure_auth queue_auth total_days max_issues
      business_id timestamp agent_id w = (res, w') ∧
    calls w' = calls w ++ cs ∧
    cs `prefix_of`
      [SearchIssues q n;
       UploadBlob (blob_name_of business_id agent_id timestamp) content false;
       SendMessage
         (json_dumps
            (queue_message business_id agent_id timestamp
               (now_process E - total_days * 86400) (now_process E)))].
Proof.
  destruct (process_issues_trace E jira_auth azure_auth queue_auth total_days
              max_issues business_id timestamp agent_id w)
    as (p & code1 & w1 & Hfetch & _ & _ & _ &
        [(_ & Hc1 & Hp)
        |(-> & q & n & r & code2 & w2 & Hc1 & _ & _ & _ &
          [(_ & _ & Hc2 & Hp)
          |(-> & items & w3 & _ & _ & _ & Hc2 & _ & _ & Hsend & Hp)])]).
  - destruct Hc1 as [Hc1|(q & n & Hc1)].
    + exists (inr (p, code1)), (printed p w1), "", 0, "", [].
      split_and!; [done|by rewrite List.app_nil_r|]. by eexists.
    + exists (inr (p, code1)), (printed p w1), q, n, "", [SearchIssues q n].
      split_and!; [done|done|]. by eexists [_; _].
  - destruct Hc2 as [Hc2|(content & Hc2)].
    + exists (inr (r, code2)), w2, q, n, "", [SearchIssues q n].
      split_and!; [done|done|]. by eexists [_; _].
    + eexists (inr (r, code2)), w2, q, n, content, [_; _].
      split_and!; [done|done|]. by eexists [_].
  - destruct Hsend as [(_ & Hc3 & _)|(e & _ & _ & [Hc3|Hc3])].
    + eexists (inr (r, 200)), w3, q, n, (Csv.csv_content items), [_; _; _].
      split_and!; [done| |by eexists []].
      by rewrite Hc3, Hc2, <- List.app_assoc.
    + eexists (inr (r, 200)), w3, q, n, (Csv.csv_content items), [_; _].
      split_and!; [done| |by eexists [_]]. by rewrite Hc3, Hc2.
    + eexists (inr (r, 200)), w3, q, n, (Csv.csv_content items), [_; _; _].
      split_and!; [done| |by eexists []].
      by rewrite Hc3, Hc2, <- List.app_assoc.
Qed.

(** X11.  A run of the orchestrator never removes or changes an object
    of the container.  When it does not return 200 the container is as
    before; when it returns 200 the container has gained exactly one
    object, at the computed path, which was free, holding the archive of
    the extracted records. *)
Theorem run_only_adds_the_archive
    (E : Env) (jira_auth azure_auth queue_auth : gmap string string)
    (total_days max_issues : Z) (business_id timestamp agent_id : string)
    (w : world) :
  ∃ p code w',
    process_issues E jira_auth azure_auth queue_auth total_days max_issues
      business_id timestamp agent_id w = (inr (p, code), w') ∧
    (∀ name v, blobs w !! name = Some v → blobs w' !! name = Some v) ∧
    (code ≠ 200 → blobs w' = blobs w) ∧
    (code = 200 →
     ∃ w1 recs,
       fetch_jira_issues E jira_auth total_days max_issues w =
         (inr (IssuesPayload recs, 200), w1) ∧
       blobs w !! blob_name_of business_id agent_id timestamp = None ∧
       blobs w' =
         <[blob_name_of business_id agent_id timestamp :=
             Csv.csv_content recs]> (blobs w)).
Proof.
  destruct (process_issues_trace E jira_auth azure_auth queue_auth total_days
              max_issues business_id timestamp agent_id w)
    as (p & code1 & w1 & Hfetch & Hb1 & _ & _ &
        [(Hcode1 & _ & Hp)
        |(-> & q & n & r & code2 & w2 & _ & _ & _ & _ &
          [(Hcode2 & Hb2 & _ & Hp)
          |(-> & items & w3 & -> & Hfree & Hb2 & _ & _ & Hb3 & _ & Hp)])]).
  - exists p, code1, (printed p w1). split; [done|]. simpl.
    split_and!; [by rewrite Hb1|done|done].
  - exists r, code2, w2. split; [done|].
    split_and!; [by rewrite Hb2|done|done].
  - exists r, 200, w3. split; [done|]. split_and!.
    + intros name v Hname. rewrite Hb3, Hb2.
      rewrite lookup_insert_ne; [done|]. intros <-. congruence.
    + done.
    + intros _. exists w1, items. by rewrite Hb3, Hb2.
Qed.

(** X12.  Every run prints the line [JIRA Issues (Formatted):] and then
    the payload of the extractor, records or error alike.  A run that
    does not return 200 prints nothing more; a run that returns 200
    prints one more line, the notifier's: the message that was added, or
    the exception that was met. *)
Theorem run_prints
    (E : Env) (jira_auth azure_auth queue_auth : gmap string string)
    (total_days max_issues : Z) (business_id timestamp agent_id : string)
    (w : world) :
  ∃ p1 code1 w1 p code w' rest,
    fetch_jira_issues E jira_auth total_days max_issues w =
      (inr (p1, code1), w1) ∧
    process_issues E jira_auth azure_auth queue_auth total_days max_issues
      business_id timestamp agent_id w = (inr (p, code), w') ∧
    stdout w' =
      stdout w ++ [OutText "JIRA Issues (Formatted):"; OutJson p1] ++ rest ∧
    (code ≠ 200 → rest = []) ∧
    (code = 200 →
     rest =
       [OutMessageAdded
          (queue_message business_id agent_id timestamp
             (now_process E - total_days * 86400) (now_process E))] ∨
     ∃ e, rest = [OutQueueError e]).
Proof.
  destruct (process_issues_trace E jira_auth azure_auth queue_auth total_days
              max_issues business_id timestamp agent_id w)
    as (p & code1 & w1 & Hfetch & _ & _ & Ho1 &
        [(Hcode1 & _ & Hp)
        |(-> & q & n & r & code2 & w2 & _ & _ & _ & Ho2 &
          [(Hcode2 & _ & _ & Hp)
          |(-> & items & w3 & -> & _ & _ & _ & _ & _ & Hsend & Hp)])]).
  - exists p, code1, w1, p, code1, (printed p w1), [].
    split_and!; [done|done| |done|done].
    simpl. by rewrite Ho1, <- List.app_assoc.
  - exists p, 200, w1, r, code2, w2, [].
    split_and!; [done|done|by rewrite Ho2|done|done].
  - destruct Hsend as [(_ & _ & Ho3)|(e & _ & Ho3 & _)].
    + eexists _, 200, w1, r, 200, w3, [_].
      split_and!; [done|done| |done|by left].
      by rewrite Ho3, Ho2, <- List.app_assoc.
    + eexists _, 200, w1, r, 200, w3, [_].
      split_and!; [done|done| |done|by right; eauto].
      by rewrite Ho3, Ho2, <- List.app_assoc.
Qed.

(** X13.  Whatever a run of the notifier meets, it never touches the
    container and requests at most one send, of the serialised message;
    the queue is left as it was or gains exactly that message at its end,
    and gains it only through that request.  With the four queue
    credentials in place and no fault of the queue client or of the
    transport, the send is requested and the message is the last element
    of the queue. *)
Theorem notifier_sends_at_most_once
    (E : Env) (queue_auth : gmap string string) (m : QueueMessage)
    (w w' : world) (res : result ()) :
  send_message_to_queue E queue_auth m w = (res, w') →
  blobs w' = blobs w ∧
  (calls w' = calls w ∧ queue w' = queue w ∨
   calls w' = calls w ++ [SendMessage (json_dumps m)] ∧
   (queue w' = queue w ∨ queue w' = queue w ++ [json_dumps m])) ∧
  (∀ a b c d,
     queue_auth !! "account_url" = Some a →
     queue_auth !! "account_name" = Some b →
     queue_auth !! "account_key" = Some c →
     queue_auth !! "queue_name" = Some d →
     queue_client E a b c d = None →
     queue_fault E (json_dumps m) = None →
     calls w' = calls w ++ [SendMessage (json_dumps m)] ∧
     queue w' = queue w ++ [json_dumps m]).
Proof.
  intros Hrun.
  destruct (send_message_to_queue_cases E queue_auth m w)
    as (w2 & Hsend & Hb & Hcases).
  rewrite Hsend in Hrun. injection Hrun as <- <-.
  split_and!; [done| |].
  - destruct Hcases as [(_ & Hq & Hc & _)
                       |(e & wq & _ & _ & Hq & _ & [Hc|Hc])]; eauto.
  - intros a b c d Ha Hb' Hc Hd Hclient Hfault.
    destruct (send_message_to_queue_delivers E queue_auth m w a b c d)
      as (w3 & Hsend' & Hc3 & Hq3); [done..|].
    rewrite Hsend in Hsend'. by injection Hsend' as ->.
Qed.

(** X14.  When the queue credentials lack one of the keys [account_url],
    [account_name], [account_key], [queue_name], the notifier prints the
    [KeyError] of a missing key and does nothing else: no send is
    requested. *)
Theorem missing_queue_credential
    (E : Env) (queue_auth : gmap string string) (m : QueueMessage)
    (w : world) (key : string) :
  key ∈ ["account_url"; "account_name"; "account_key"; "queue_name"] →
  queue_auth !! key = None →
  ∃ k,
    k ∈ ["account_url"; "account_name"; "account_key"; "queue_name"] ∧
    queue_auth !! k = None ∧
    send_message_to_queue E queue_auth m w =
      (inr (), print (OutQueueError (KeyError k)) w).
Proof.
  intros Hkey Hnone.
  unfold send_message_to_queue, send_body, getitem. unfold_M.
  destruct (queue_auth !! "account_url") as [a|] eqn:Ha;
    [|exists "account_url"; split_and!; [by repeat constructor|done|done]].
  destruct (queue_auth !! "account_name") as [b|] eqn:Hb;
    [|exists "account_name"; split_and!; [by repeat constructor|done|done]].
  destruct (queue_auth !! "account_key") as [c|] eqn:Hc;
    [|exists "account_key"; split_and!; [by repeat constructor|done|done]].
  destruct (queue_auth !! "queue_name") as [d|] eqn:Hd;
    [|exists "queue_name"; split_and!; [by repeat constructor|done|done]].
  repeat (apply elem_of_cons in Hkey as [->|Hkey]); try congruence.
  by apply elem_of_nil in Hkey.
Qed.

(** A run that returned 200 leaves an object at the computed path. *)
Lemma run_held
    (E : Env) (jira_auth azure_auth queue_auth : gmap string string)
    (total_days max_issues : Z) (business_id timestamp agent_id : string)
    (w w1 : world) (p : payload) :
  process_issues E jira_auth azure_auth queue_auth total_days max_issues
    business_id timestamp agent_id w = (inr (p, 200), w1) →
  ∃ content,
    blobs w1 !! blob_name_of business_id agent_id timestamp = Some content.
Proof.
  intros Hrun.
  destruct (process_issues_trace E jira_auth azure_auth queue_auth total_days
              max_issues business_id timestamp agent_id w)
    as (p0 & code1 & w0 & _ & _ & _ & _ &
        [(Hcode1 & _ & Hp)
        |(-> & q & n & r & code2 & w2 & _ & _ & _ & _ &
          [(Hcode2 & _ & _ & Hp)
          |(-> & items & w3 & _ & _ & Hb2 & _ & _ & Hb3 & _ & Hp)])]);
    rewrite Hp in Hrun; simplify_eq; try done.
  exists (Csv.csv_content items). by rewrite Hb3, Hb2, lookup_insert_eq.
Qed.

(** X15.  After a run that returned 200, no run with the same storage
    credentials for the same tenant, agent and timestamp returns 200,
    whatever its other credentials, its services and its window: such a
    run leaves the container and the queue as they are and requests no
    send, so an export is not repeated. *)
Theorem rerun_is_rejected
    (E : Env) (jira_auth azure_auth queue_auth : gmap string string)
    (total_days max_issues : Z) (business_id timestamp agent_id : string)
    (w w1 : world) (p : payload) :
  process_issues E jira_auth azure_auth queue_auth total_days max_issues
    business_id timestamp agent_id w = (inr (p, 200), w1) →
  ∀ E' jira_auth' queue_auth' total_days' max_issues' p' code' w2,
    process_issues E' jira_auth' azure_auth queue_auth' total_days'
      max_issues' business_id timestamp agent_id w1 =
      (inr (p', code'), w2) →
    code' ≠ 200 ∧
    blobs w2 = blobs w1 ∧ queue w2 = queue w1 ∧
    Spec.sends (calls w2) = Spec.sends (calls w1).
Proof.
  intros Hrun.
  assert (Hheld : is_Some (blobs w1 !!
                             blob_name_of business_id agent_id timestamp)).
  { destruct (run_held E jira_auth azure_auth queue_auth total_days
                max_issues business_id timestamp agent_id w w1 p Hrun)
      as [content Hheld]. by eauto. }
  intros E' jira_auth' queue_auth' total_days' max_issues' p' code' w2 Hrerun.
  destruct (process_issues_trace E' jira_auth' azure_auth queue_auth'
              total_days' max_issues' business_id timestamp agent_id w1)
    as (p0 & code1 & w1' & Hfetch & Hb1 & Hq1 & _ &
        [(Hcode1 & Hc1 & Hp)
        |(-> & q & n & r & code2 & w2' & Hc1 & _ & Hq2 & _ &
          [(Hcode2 & Hb2 & Hc2 & Hp)
          |(-> & items & w3 & _ & Hfree & _)])]).
  - rewrite Hp in Hrerun. injection Hrerun as <- <- <-. simpl.
    split_and!; [done|done|done|].
    destruct Hc1 as [->|(q & n & ->)]; [done|].
    rewrite sends_app. simpl. by rewrite List.app_nil_r.
  - rewrite Hp in Hrerun. injection Hrerun as <- <- <-.
    split_and!; [done..|].
    destruct Hc2 as [->|(content & ->)];
      rewrite sends_app; simpl; by rewrite List.app_nil_r.
  - destruct Hheld as [v Hv]. congruence.
Qed.

(** ** Further properties of the path and of the archive *)

Lemma str_length_app (s t : string) :
  String.length (s +:+ t) = (String.length s + String.length t)%nat.
Proof.
  induction s as [|c s IH]; [done|]. rewrite str_app_cons. simpl. by rewrite IH.
Qed.

Lemma str_app_inv_tail (s s' x : string) : s +:+ x = s' +:+ x → s = s'.
Proof.
  revert s'. induction s as [|c s IH]; intros [|c' s'] Heq.
  - done.
  - apply (f_equal String.length) in Heq.
    rewrite str_app_nil_l, str_app_cons in Heq. simpl in Heq.
    rewrite str_length_app in Heq. lia.
  - apply (f_equal String.length) in Heq.
    rewrite str_app_nil_l, str_app_cons in Heq. simpl in Heq.
    rewrite str_length_app in Heq. lia.
  - rewrite !str_app_cons in Heq. injection Heq as -> Heq.
    by rewrite (IH _ Heq).
Qed.

Lemma split_at_hyphen (a a' r r' : string) :
  Spec.hyphen_free a → Spec.hyphen_free a' →
  a +:+ String "-" r = a' +:+ String "-" r' → a = a' ∧ r = r'.
Proof.
  unfold Spec.hyphen_free.
  revert a'. induction a as [|c a IH]; intros [|c' a'] Ha Ha' Heq.
  - rewrite !str_app_nil_l in Heq. by injection Heq.
  - rewrite str_app_nil_l, str_app_cons in Heq. injection Heq as <- _.
    simpl in Ha'. done.
  - rewrite str_app_nil_l, str_app_cons in Heq. injection Heq as -> _.
    simpl in Ha. done.
  - rewrite !str_app_cons in Heq. injection Heq as -> Heq.
    simpl in Ha, Ha'. destruct (decide ("-"%char = c')); [done|].
    destruct (IH a' Ha Ha' Heq) as [-> ->]. done.
Qed.

(** X17.  For agent ids without a hyphen the blob path and the request id
    determine the agent id and the timestamp: two runs of one tenant with
    the same path, or the same request id, have the same agent id and the
    same timestamp.  With hyphens this fails: the agent [a-b] at
    timestamp [c] and the agent [a] at timestamp [b-c] share both. *)
Theorem path_determines_run :
  (∀ business_id a t a' t',
     Spec.hyphen_free a → Spec.hyphen_free a' →
     blob_name_of business_id a t = blob_name_of business_id a' t' →
     a = a' ∧ t = t') ∧
  (∀ business_id business_id' a t a' t' s e s' e',
     Spec.hyphen_free a → Spec.hyphen_free a' →
     request_id (queue_message business_id a t s e) =
       request_id (queue_message business_id' a' t' s' e') →
     a = a' ∧ t = t') ∧
  (∀ business_id a b c s e,
     blob_name_of business_id (a +:+ "-" +:+ b) c =
       blob_name_of business_id a (b +:+ "-" +:+ c) ∧
     request_id (queue_message business_id (a +:+ "-" +:+ b) c s e) =
       request_id (queue_message business_id a (b +:+ "-" +:+ c) s e)).
Proof.
  split_and!.
  - intros business_id a t a' t' Ha Ha' Heq. unfold blob_name_of in Heq.
    do 3 apply (inj (String.app _)) in Heq.
    change ("-" +:+ ?x) with (String "-" x) in Heq. injection Heq as Heq.
    change ("-" +:+ ?x) with (String "-" x) in Heq.
    apply split_at_hyphen in Heq as [-> Heq]; [|done..].
    by apply str_app_inv_tail in Heq as ->.
  - intros business_id business_id' a t a' t' s e s' e' Ha Ha' Heq.
    simpl in Heq. change ("-" +:+ ?x) with (String "-" x) in Heq.
    by apply split_at_hyphen in Heq.
  - intros business_id a b c s e. unfold blob_name_of. simpl.
    by rewrite !str_app_assoc.
Qed.

Lemma row_of_inj (r r' : TicketRecord) : Csv.row_of r = Csv.row_of r' → r = r'.
Proof. destruct r, r'. unfold Csv.row_of. simpl. by intros [= -> -> -> -> -> -> ->]. Qed.

(** X18.  The archive loses nothing: two different record lists never
    give the same CSV content, whatever commas, quotes and line ends the
    fields contain. *)
Theorem csv_content_distinguishes (recs recs' : list TicketRecord) :
  recs ≠ recs' → Csv.csv_content recs ≠ Csv.csv_content recs'.
Proof.
  intros Hne Heq. apply Hne.
  destruct (csv_content_rows recs) as [_ Hread].
  destruct (csv_content_rows recs') as [_ Hread'].
  rewrite Heq, Hread' in Hread. injection Hread as Hrows.
  clear -Hrows. revert recs' Hrows.
  induction recs as [|r recs IH]; intros [|r' recs'] Hrows; try done.
  rewrite !fmap_cons in Hrows.
  apply (inj2 cons) in Hrows as [Hr Hrows].
  by rewrite (row_of_inj _ _ Hr), (IH _ Hrows).
Qed.

Lemma needs_quotes_app (s t : string) :
  Csv.needs_quotes (s +:+ t) = Csv.needs_quotes s || Csv.needs_quotes t.
Proof.
  induction s as [|c s IH]; [done|].
  rewrite str_app_cons. simpl. by rewrite IH, orb_assoc.
Qed.

(** X19.  In every successful extraction the [entries] of a ticket that
    has a comment contain a line end, so the archiver writes that field
    between quotes: a record with comments spans several lines of the
    CSV text. *)
Theorem entries_are_quoted
    (E : Env) (jira_auth : gmap string string) (total_days max_issues : Z)
    (w w' : world) (recs : list TicketRecord) (code : Z) :
  fetch_jira_issues E jira_auth total_days max_issues w =
    (inr (IssuesPayload recs, code), w') →
  ∃ issues,
    search_tickets E jira_auth total_days max_issues w = (inr issues, w') ∧
    Forall2 (λ issue r,
      comments issue ≠ [] →
      Csv.needs_quotes (entries r) = true ∧
      Csv.write_field (entries r) =
        String Str.dquote (Csv.escape (entries r) +:+ String Str.dquote ""))
      issues recs.
Proof.
  intros (_ & issues & Hsearch & _ & Hrecs)%fetch_jira_issues_records.
  exists issues. split; [done|].
  eapply Forall2_impl; [exact Hrecs|].
  intros issue r (_ & _ & _ & _ & Hentries & _)%issue_data_inv Hcs.
  assert (Hq : Csv.needs_quotes (entries r) = true).
  { rewrite Hentries. unfold Extract.concatenated_comments.
    destruct (comments issue) as [|c cs]; [done|].
    rewrite decide_True by (simpl; lia).
    cbn [Extract.comments_loop]. rewrite comments_loop_lines.
    unfold Extract.entry_line.
    rewrite !needs_quotes_app. simpl Csv.needs_quotes at 6.
    by rewrite !orb_true_r. }
  split; [done|]. unfold Csv.write_field. by rewrite Hq.
Qed.

End Script.

(** ** Concrete runs *)

Local Abbreviation fetch_ref :=
  (fetch_jira_issues Ref.epoch_of Ref.start_date_ymd).
Local Abbreviation search_ref := (search_tickets Ref.start_date_ymd).
Local Abbreviation process_ref :=
  (process_issues Ref.epoch_of Ref.start_date_ymd Ref.json_dumps).

Local Abbreviation three_tickets :=
  (Sample.env [Sample.resolved_ticket; Sample.reopened_ticket;
               Sample.quiet_ticket]).

Local Abbreviation three_tickets_queue_down :=
  (Sample.env_queue_down [Sample.resolved_ticket; Sample.reopened_ticket;
                          Sample.quiet_ticket]).

(** A ticket resolved by its only status change. *)
Example resolved_ticket_record :
  issue_data Ref.epoch_of Sample.resolved_ticket =
  inr {| channel_id := "jira"; title := "Printer on fire";
         original_summary := ""; description := "";
         entries := "# Entry 1: first" +:+ Str.nl +:+
                    "# Entry 2: second" +:+ Str.nl;
         resolved_by := "Alice"; resolved_timestamp := "1705314600" |}.
Proof. reflexivity. Qed.

(** The scan stops at the first status change: a later change to
    ["done"] is not looked at. *)
Example reopened_ticket_record :
  issue_data Ref.epoch_of Sample.reopened_ticket =
  inr {| channel_id := "jira"; title := "Printer on fire";
         original_summary := ""; description := "";
         entries := ""; resolved_by := ""; resolved_timestamp := "" |}.
Proof. reflexivity. Qed.

(** Requesting 500 results queries for 100. *)
Example max_results_cap :
  calls (search_ref (Sample.env []) Sample.jira_auth 30 500
           Sample.empty_world).2 =
  [SearchIssues "created >= '2023-12-16' ORDER BY created DESC" 100].
Proof. reflexivity. Qed.

Lemma resolution_from_first_status_change_witness :
  ∃ recs code w',
    fetch_ref (Sample.env [Sample.resolved_ticket; Sample.reopened_ticket])
      Sample.jira_auth 30 50 Sample.empty_world =
      (inr (IssuesPayload recs, code), w') ∧
    resolved_by <$> recs = ["Alice"; ""] ∧
    resolved_timestamp <$> recs = ["1705314600"; ""] ∧
    ∃ issues,
      search_ref (Sample.env [Sample.resolved_ticket; Sample.reopened_ticket])
        Sample.jira_auth 30 50 Sample.empty_world = (inr issues, w') ∧
      Forall2 (λ issue r,
        match Spec.first_status_change (histories issue) with
        | Some (h, it) =>
            (toString it ∈ Spec.done_spellings →
               resolved_by r = displayName (author h) ∧
               (created h ≠ "" →
                ∃ t, Ref.epoch_of (created h) = Some t ∧
                     resolved_timestamp r = pretty t) ∧
               (created h = "" → resolved_timestamp r = "")) ∧
            (toString it ∉ Spec.done_spellings →
               resolved_by r = "" ∧ resolved_timestamp r = "") ∧
            (resolved_by r ≠ "" ∨ resolved_timestamp r ≠ "" →
               toString it ∈ Spec.done_spellings)
        | None => resolved_by r = "" ∧ resolved_timestamp r = ""
        end) issues recs.
Proof.
  eexists _, _, _. split; [vm_compute; reflexivity|].
  split; [reflexivity|]. split; [reflexivity|].
  eapply (resolution_from_first_status_change Ref.epoch_of Ref.start_date_ymd).
  vm_compute; reflexivity.
Defined.

(** C1 as stated fails: a first status change to ["done"] whose history
    entry has an empty creation time gives a record with [resolved_by]
    set and [resolved_timestamp] empty, which is the rendering of no
    integer. *)
Lemma done_without_creation_time :
  ¬ ∀ recs code w',
      fetch_ref (Sample.env [Sample.ticket [] [Sample.dateless_done]])
        Sample.jira_auth 30 50 Sample.empty_world =
        (inr (IssuesPayload recs, code), w') →
      ∃ issues,
        search_ref (Sample.env [Sample.ticket [] [Sample.dateless_done]])
          Sample.jira_auth 30 50 Sample.empty_world = (inr issues, w') ∧
        Forall2 (λ issue r,
          ∀ h it,
            Spec.first_status_change (histories issue) = Some (h, it) →
            toString it ∈ Spec.done_spellings →
            resolved_by r = displayName (author h) ∧
            ∃ t : Z, resolved_timestamp r = pretty t) issues recs.
Proof.
  intros H.
  assert (Hrun : ∃ w',
            fetch_ref (Sample.env [Sample.ticket [] [Sample.dateless_done]])
              Sample.jira_auth 30 50 Sample.empty_world =
            (inr (IssuesPayload
                    [{| channel_id := "jira"; title := "Printer on fire";
                        original_summary := ""; description := "";
                        entries := ""; resolved_by := "Dan";
                        resolved_timestamp := "" |}], 200), w'))
    by (vm_compute; eauto).
  destruct Hrun as [w' Hrun].
  destruct (H _ _ _ Hrun) as (issues & Hsearch & Hall).
  vm_compute in Hsearch. injection Hsearch as <-.
  inversion Hall as [|? ? ? ? Hfirst _]; subst.
  destruct (Hfirst Sample.dateless_done (Sample.status_change "todo" "done")
              eq_refl) as [_ [t Ht]]; [by repeat constructor|].
  simpl in Ht. by apply eq_sym, pretty_Z_nonempty in Ht.
Qed.

Lemma entries_numbered_lines_witness :
  ∃ recs code w',
    fetch_ref (Sample.env [Sample.resolved_ticket; Sample.reopened_ticket])
      Sample.jira_auth 30 50 Sample.empty_world =
      (inr (IssuesPayload recs, code), w') ∧
    ∃ issues,
      search_ref (Sample.env [Sample.resolved_ticket; Sample.reopened_ticket])
        Sample.jira_auth 30 50 Sample.empty_world = (inr issues, w') ∧
      Forall2 (λ issue r,
        entries r = Spec.entries_lines (comments issue) ∧
        (comments issue = [] → entries r = "")) issues recs.
Proof.
  eexists _, _, _. split; [vm_compute; reflexivity|].
  eapply (entries_numbered_lines Ref.epoch_of Ref.start_date_ymd).
  vm_compute; reflexivity.
Defined.

(** C2 as stated fails: however the label of entry [N] is written, the
    [entries] of a ticket with the single comment [a] are not that
    comment behind its label, since the extractor ends the line with a
    newline. *)
Lemma entries_not_joined_by_newlines :
  ¬ ∃ label : nat → string,
      ∀ recs code w',
        fetch_ref (Sample.env [Sample.quiet_ticket]) Sample.jira_auth 30 50
          Sample.empty_world = (inr (IssuesPayload recs, code), w') →
        ∃ issues,
          search_ref (Sample.env [Sample.quiet_ticket]) Sample.jira_auth 30 50
            Sample.empty_world = (inr issues, w') ∧
          Forall2 (λ issue r,
            entries r = Spec.entries_joined label (comments issue))
            issues recs.
Proof.
  intros [label H].
  assert (Hrun : ∃ recs code w',
            fetch_ref (Sample.env [Sample.quiet_ticket]) Sample.jira_auth 30 50
              Sample.empty_world = (inr (IssuesPayload recs, code), w'))
    by (vm_compute; eauto).
  destruct Hrun as (recs & code & w' & Hrun).
  destruct (H _ _ _ Hrun) as (issues & Hsearch & Hall).
  vm_compute in Hrun, Hsearch.
  injection Hrun as <- <- <-. injection Hsearch as <-.
  inversion Hall as [|? ? ? ? Hentries _]; subst. clear -Hentries.
  unfold Spec.entries_joined in Hentries. simpl in Hentries.
  generalize dependent (label 1%nat). intros s Hs. clear label.
  do 12 (destruct s as [|? s]; [discriminate Hs|];
         injection Hs as _ Hs).
  destruct s as [|? s]; [discriminate Hs|]. injection Hs as _ Hs.
  destruct s; discriminate Hs.
Qed.

Lemma resolution_fields_coupled_witness :
  ∃ recs code w',
    fetch_ref (Sample.env [Sample.resolved_ticket; Sample.reopened_ticket])
      Sample.jira_auth 30 50 Sample.empty_world =
      (inr (IssuesPayload recs, code), w') ∧
    resolved_by <$> recs = ["Alice"; ""] ∧
    resolved_timestamp <$> recs = ["1705314600"; ""] ∧
    ∃ issues,
      search_ref (Sample.env [Sample.resolved_ticket; Sample.reopened_ticket])
        Sample.jira_auth 30 50 Sample.empty_world = (inr issues, w') ∧
      Forall2 (λ issue r,
        (resolved_by r = "" ∧ resolved_timestamp r = "" ∨
         ∃ h it,
           Spec.first_status_change (histories issue) = Some (h, it) ∧
           toString it ∈ Spec.done_spellings ∧
           resolved_by r = displayName (author h) ∧
           (created h = "" ∧ resolved_timestamp r = "" ∨
            created h ≠ "" ∧
            ∃ t, Ref.epoch_of (created h) = Some t ∧
                 resolved_timestamp r = pretty t)) ∧
        (resolved_timestamp r ≠ "" →
         ∃ t : Z, resolved_timestamp r = pretty t) ∧
        ((∀ h it,
            Spec.first_status_change (histories issue) = Some (h, it) →
            displayName (author h) ≠ "" ∧ created h ≠ "") →
         (resolved_by r = "" ↔ resolved_timestamp r = ""))) issues recs.
Proof.
  eexists _, _, _. split; [vm_compute; reflexivity|].
  split; [reflexivity|]. split; [reflexivity|].
  eapply (resolution_fields_coupled Ref.epoch_of Ref.start_date_ymd).
  vm_compute; reflexivity.
Defined.

(** C9 as stated fails: a change to ["done"] made by an author whose
    display name is empty gives a record with an empty [resolved_by] and
    a [resolved_timestamp] that is set. *)
Lemma resolved_by_empty_timestamp_set :
  ¬ ∀ recs code w',
      fetch_ref (Sample.env [Sample.ticket [] [Sample.by_nobody_done]])
        Sample.jira_auth 30 50 Sample.empty_world =
        (inr (IssuesPayload recs, code), w') →
      Forall (λ r, resolved_by r = "" ↔ resolved_timestamp r = "") recs.
Proof.
  intros H.
  assert (Hrun : ∃ w',
            fetch_ref (Sample.env [Sample.ticket [] [Sample.by_nobody_done]])
              Sample.jira_auth 30 50 Sample.empty_world =
            (inr (IssuesPayload
                    [{| channel_id := "jira"; title := "Printer on fire";
                        original_summary := ""; description := "";
                        entries := ""; resolved_by := "";
                        resolved_timestamp := "1705314600" |}], 200), w'))
    by (vm_compute; eauto).
  destruct Hrun as [w' Hrun]. apply H in Hrun.
  apply Forall_cons in Hrun as [[Hiff _] _]. simpl in Hiff.
  by specialize (Hiff eq_refl).
Qed.

Lemma no_tickets_is_not_found_witness :
  ∃ w0,
    search_ref (Sample.env []) Sample.jira_auth 30 50 Sample.empty_world =
      (inr [], w0) ∧
    fetch_ref (Sample.env []) Sample.jira_auth 30 50 Sample.empty_world =
      (inr (ErrorPayload "No tickets found", 404), w0) ∧
    ∃ w',
      process_ref (Sample.env []) Sample.jira_auth Sample.azure_auth
        Sample.queue_auth 30 50 "T" "123" "A" Sample.empty_world =
        (inr (ErrorPayload "No tickets found", 404), w') ∧
      blobs w' = blobs Sample.empty_world ∧
      queue w' = queue Sample.empty_world ∧
      Spec.uploads (calls w') = Spec.uploads (calls Sample.empty_world) ∧
      Spec.sends (calls w') = Spec.sends (calls Sample.empty_world).
Proof.
  eexists. split; [vm_compute; reflexivity|].
  eapply (proj2 (no_tickets_is_not_found Ref.epoch_of Ref.start_date_ymd
                   Ref.json_dumps (Sample.env []) Sample.jira_auth
                   Sample.azure_auth Sample.queue_auth 30 50 "T" "123" "A"
                   Sample.empty_world)).
  vm_compute; reflexivity.
Defined.

Lemma extraction_exceptions_collapse_witness :
  let issue := Sample.ticket [] [Sample.badly_dated_done] in
  ∃ w0,
    search_ref (Sample.env [issue]) Sample.jira_auth 30 50
      Sample.empty_world = (inr [issue], w0) ∧
    issue ∈ [issue] ∧
    Spec.first_status_change (histories issue) =
      Some (Sample.badly_dated_done, Sample.status_change "todo" "done") ∧
    Spec.is_done (Sample.status_change "todo" "done") ∧
    created Sample.badly_dated_done ≠ "" ∧
    Ref.epoch_of (created Sample.badly_dated_done) = None ∧
    fetch_ref (Sample.env [issue]) Sample.jira_auth 30 50 Sample.empty_world =
      (inr (ErrorPayload "Unable to login to JIRA", 401), w0).
Proof.
  intros issue. eexists.
  assert (Hin : issue ∈ [issue]) by apply list_elem_of_here.
  assert (Hcreated : created Sample.badly_dated_done ≠ "") by discriminate.
  split_and!; [vm_compute; reflexivity | exact Hin | reflexivity
              | reflexivity | exact Hcreated | reflexivity |].
  eapply (proj2 (proj2 (extraction_exceptions_collapse Ref.epoch_of
                          Ref.start_date_ymd (Sample.env [issue])
                          Sample.jira_auth 30 50 Sample.empty_world))
            [issue] _ issue Sample.badly_dated_done
            (Sample.status_change "todo" "done"));
    [vm_compute; reflexivity | exact Hin | reflexivity | reflexivity
    | exact Hcreated | reflexivity].
Defined.

Lemma orchestrator_short_circuits_witness :
  ∃ p w1,
    fetch_ref three_tickets Sample.jira_auth 30 50 Sample.empty_world =
      (inr (p, 200), w1) ∧
    ∃ r w2,
      upload_csv_to_azure three_tickets Sample.azure_auth "T" p "123" "A"
        (printed p w1) = (inr (r, 200), w2) ∧
      r = SuccessPayload "T/interactions/incidents/jira" ∧
      ∃ w3,
        process_ref three_tickets Sample.jira_auth Sample.azure_auth
          Sample.queue_auth 30 50 "T" "123" "A" Sample.empty_world =
          (inr (r, 200), w3) ∧
        Spec.sends (calls w3) =
          [Ref.json_dumps
             {| interaction_types := ["incidents"];
               channels := ["jira"];
               org_id := "T";
               request_id := "A-123";
               request_mode := ["historical"];
               requested_features := ["topic-classification"];
               start_date := "1702722600";
               end_date := "1705314600" |}] ∧
        queue w3 =
          [Ref.json_dumps
             {| interaction_types := ["incidents"];
               channels := ["jira"];
               org_id := "T";
               request_id := "A-123";
               request_mode := ["historical"];
               requested_features := ["topic-classification"];
               start_date := "1702722600";
               end_date := "1705314600" |}].
Proof.
  eexists _, _. split; [vm_compute; reflexivity|].
  eexists _, _. split; [vm_compute; reflexivity|].
  pose proof (proj2 (proj2 (orchestrator_short_circuits Ref.epoch_of
                   Ref.start_date_ymd Ref.json_dumps three_tickets
                   Sample.jira_auth Sample.azure_auth Sample.queue_auth
                   30 50 "T" "123" "A" Sample.empty_world _ _ 200
                   ltac:(vm_compute; reflexivity))
                 eq_refl _ 200 _ ltac:(vm_compute; reflexivity)) eq_refl)
    as (Hr & w3 & _ & Hprocess & _ & Hdelivers).
  split; [exact Hr|]. exists w3. split; [exact Hprocess|].
  destruct (Hdelivers "https://queue.example" "acct" "key" "requests"
              ltac:(vm_compute; reflexivity) ltac:(vm_compute; reflexivity)
              ltac:(vm_compute; reflexivity) ltac:(vm_compute; reflexivity)
              eq_refl eq_refl) as [Hcalls Hqueue].
  split.
  - rewrite Hcalls. vm_compute. reflexivity.
  - rewrite Hqueue. vm_compute. reflexivity.
Defined.

(** C4 as stated fails: with the key [queue_name] missing from the queue
    credentials the archive succeeds, the run returns 200, and no send
    is requested. *)
Lemma archive_success_without_send :
  ¬ ∀ p w',
      process_ref three_tickets Sample.jira_auth Sample.azure_auth
        (delete "queue_name" Sample.queue_auth) 30 50 "T" "123" "A"
        Sample.empty_world = (inr (p, 200), w') →
      Spec.sends (calls w') ≠ [].
Proof.
  intros H.
  assert (Hrun : ∃ p w',
            process_ref three_tickets Sample.jira_auth Sample.azure_auth
              (delete "queue_name" Sample.queue_auth) 30 50 "T" "123" "A"
              Sample.empty_world = (inr (p, 200), w') ∧
            Spec.sends (calls w') = [])
    by (eexists _, _; split; vm_compute; reflexivity).
  destruct Hrun as (p & w' & Hrun & Hnone). by apply (H p w' Hrun).
Qed.

Lemma notifier_failure_is_swallowed_witness :
  ∃ p w1,
    fetch_ref three_tickets_queue_down Sample.jira_auth 30 50
      Sample.empty_world = (inr (p, 200), w1) ∧
    ∃ r w2,
      upload_csv_to_azure three_tickets_queue_down Sample.azure_auth "T" p
        "123" "A" (printed p w1) = (inr (r, 200), w2) ∧
      ∃ wq,
        send_body Ref.json_dumps three_tickets_queue_down Sample.queue_auth
          (queue_message "T" "A" "123"
             (now_process three_tickets_queue_down - 30 * 86400)
             (now_process three_tickets_queue_down)) w2
          = (inl (AzureError "connection reset"), wq) ∧
        process_ref three_tickets_queue_down Sample.jira_auth
          Sample.azure_auth Sample.queue_auth 30 50 "T" "123" "A"
          Sample.empty_world =
          (inr (SuccessPayload "T/interactions/incidents/jira", 200),
           print (OutQueueError (AzureError "connection reset")) wq) ∧
        queue (print (OutQueueError (AzureError "connection reset")) wq) = [].
Proof.
  eexists _, _. split; [vm_compute; reflexivity|].
  eexists _, _. split; [vm_compute; reflexivity|].
  eexists. split; [vm_compute; reflexivity|].
  pose proof (notifier_failure_is_swallowed Ref.epoch_of Ref.start_date_ymd
                Ref.json_dumps three_tickets_queue_down Sample.jira_auth
                Sample.azure_auth Sample.queue_auth 30 50 "T" "123" "A"
                Sample.empty_world _ _ _ _ eq_refl eq_refl)
    as (_ & _ & Hswallow).
  destruct (Hswallow _ _ eq_refl) as (Hprocess & Hqueue & _).
  split; [exact Hprocess | exact Hqueue].
Defined.

Lemma archiver_never_overwrites_witness :
  ∃ r code w',
    upload_csv_to_azure (Sample.env []) Sample.azure_auth "T"
      (IssuesPayload []) "123" "A" Sample.taken_world = (inr (r, code), w') ∧
    is_Some (blobs Sample.taken_world !! blob_name_of "T" "A" "123") ∧
    code = 500 ∧ (∃ msg, r = ErrorPayload msg) ∧
    blobs w' = blobs Sample.taken_world.
Proof.
  eexists _, _, _. split; [vm_compute; reflexivity|].
  assert (Htaken :
            is_Some (blobs Sample.taken_world !! blob_name_of "T" "A" "123"))
    by (vm_compute; eauto).
  split; [exact Htaken|].
  refine (proj2 (proj2 (archiver_never_overwrites (Sample.env [])
                          Sample.azure_auth "T" (IssuesPayload []) "123" "A"
                          Sample.taken_world _ _ _ _)) Htaken).
  vm_compute; reflexivity.
Defined.

Lemma one_message_per_successful_archive_witness :
  ∃ res code w',
    process_ref three_tickets Sample.jira_auth Sample.azure_auth
      Sample.queue_auth 30 50 "T" "123" "A" Sample.empty_world =
      (inr (res, code), w') ∧
    code = 200 ∧
    queue w' =
      [Ref.json_dumps
         {| interaction_types := ["incidents"];
           channels := ["jira"];
           org_id := "T";
           request_id := "A-123";
           request_mode := ["historical"];
           requested_features := ["topic-classification"];
           start_date := "1702722600";
           end_date := "1705314600" |}] ∧
    Spec.sends (calls w') =
      [Ref.json_dumps
         {| interaction_types := ["incidents"];
           channels := ["jira"];
           org_id := "T";
           request_id := "A-123";
           request_mode := ["historical"];
           requested_features := ["topic-classification"];
           start_date := "1702722600";
           end_date := "1705314600" |}].
Proof.
  eexists _, _, _. split; [vm_compute; reflexivity|].
  split; [reflexivity|].
  pose proof (proj2 (proj2 (proj2 (proj2
            (one_message_per_successful_archive Ref.epoch_of
               Ref.start_date_ymd Ref.json_dumps three_tickets
               Sample.jira_auth Sample.azure_auth Sample.queue_auth 30 50
               "T" "123" "A" Sample.empty_world _ _ 200
               ltac:(vm_compute; reflexivity)))))
            eq_refl "https://queue.example" "acct" "key" "requests"
            ltac:(vm_compute; reflexivity) ltac:(vm_compute; reflexivity)
            ltac:(vm_compute; reflexivity) ltac:(vm_compute; reflexivity)
            eq_refl eq_refl) as [Hqueue Hsends].
  split.
  - rewrite Hqueue. vm_compute. reflexivity.
  - rewrite Hsends. vm_compute. reflexivity.
Defined.

(** C7 as stated fails: with a queue transport that raises, the archive
    succeeds and the run returns 200, yet no message is on the queue. *)
Lemma archive_success_not_published :
  ¬ ∀ p code w',
      process_ref three_tickets_queue_down Sample.jira_auth Sample.azure_auth
        Sample.queue_auth 30 50 "T" "123" "A" Sample.empty_world =
        (inr (p, code), w') →
      code = 200 → ∃ m, queue w' = queue Sample.empty_world ++ [m].
Proof.
  intros H.
  assert (Hrun : ∃ p w',
            process_ref three_tickets_queue_down Sample.jira_auth
              Sample.azure_auth Sample.queue_auth 30 50 "T" "123" "A"
              Sample.empty_world = (inr (p, 200), w') ∧
            queue w' = [])
    by (eexists _, _; split; vm_compute; reflexivity).
  destruct Hrun as (p & w' & Hrun & Hempty).
  destruct (H p 200 w' Hrun eq_refl) as [m Hm].
  rewrite Hempty in Hm. discriminate Hm.
Qed.

Lemma archive_object_witness :
  ∃ r code w',
    upload_csv_to_azure (Sample.env []) Sample.azure_auth "T"
      (IssuesPayload [Sample.full_record]) "123" "A" Sample.empty_world =
      (inr (r, code), w') ∧
    code = 200 ∧
    Csv.csv_content [Sample.full_record] =
      "channel_id,title,original_summary,description,entries,resolved_by,resolved_timestamp"
        +:+ Str.crlf +:+
      "jira," +:+ String Str.dquote "Printer, on fire" +:+
      String Str.dquote ",summary,It burns," +:+
      String Str.dquote "# Entry 1: a" +:+ Str.nl +:+
      String Str.dquote ",Alice,1705314600" +:+ Str.crlf ∧
    blobs w' =
      {[ "T/interactions/incidents/jira/request-T-A-123.csv" :=
           Csv.csv_content [Sample.full_record] ]} ∧
    Csv.reader (Csv.csv_content [Sample.full_record]) =
    Some [["channel_id"; "title"; "original_summary"; "description";
           "entries"; "resolved_by"; "resolved_timestamp"];
          ["jira"; "Printer, on fire"; "summary"; "It burns";
           "# Entry 1: a" +:+ Str.nl; "Alice"; "1705314600"]].
Proof.
  eexists _, _, _. split; [vm_compute; reflexivity|].
  split; [reflexivity|]. split; [vm_compute; reflexivity|].
  pose proof (archive_object (Sample.env []) Sample.azure_auth "T"
                [Sample.full_record] "123" "A" Sample.empty_world _ _ 200
                ltac:(vm_compute; reflexivity))
    as (Hwritten & _ & _ & _ & _ & _ & Hread).
  destruct (Hwritten eq_refl) as (_ & Hblobs & _).
  split; [exact Hblobs | exact Hread].
Defined.

(** ** Concrete runs for the further properties *)

Lemma records_follow_tickets_witness :
  ∃ recs code w',
    fetch_ref three_tickets Sample.jira_auth 30 50 Sample.empty_world =
      (inr (IssuesPayload recs, code), w') ∧
    ∃ issues,
      search_ref three_tickets Sample.jira_auth 30 50 Sample.empty_world =
        (inr issues, w') ∧
      length recs = length issues ∧
      Forall2 (λ issue r,
        channel_id r = "jira" ∧
        original_summary r = "" ∧
        title r = match summary issue with Some s => s | None => "" end ∧
        description r =
          match issue_description issue with Some s => s | None => "" end)
        issues recs.
Proof.
  eexists _, _, _. split; [vm_compute; reflexivity|].
  eapply (records_follow_tickets Ref.epoch_of Ref.start_date_ymd).
  vm_compute; reflexivity.
Defined.

Lemma missing_tracker_credential_witness :
  "token" ∈ ["jira_url"; "username"; "token"] ∧
  delete "token" Sample.jira_auth !! "token" = None ∧
  fetch_ref three_tickets (delete "token" Sample.jira_auth) 30 50
    Sample.empty_world =
    (inr (ErrorPayload "Unable to login to JIRA", 401), Sample.empty_world).
Proof.
  assert (Hin : "token" ∈ ["jira_url"; "username"; "token"])
    by (by repeat constructor).
  assert (Hnone : delete "token" Sample.jira_auth !! "token" = None)
    by apply lookup_delete_eq.
  split_and!; [exact Hin | exact Hnone |].
  exact (missing_tracker_credential Ref.epoch_of Ref.start_date_ymd
           three_tickets (delete "token" Sample.jira_auth) 30 50
           Sample.empty_world "token" Hin Hnone).
Defined.

Lemma archiver_error_text_witness :
  ∃ e w1,
    upload_body (Sample.env_storage_denied []) Sample.azure_auth "T"
      (IssuesPayload []) "123" "A" Sample.empty_world = (inl e, w1) ∧
    ∃ msg,
      upload_csv_to_azure (Sample.env_storage_denied []) Sample.azure_auth
        "T" (IssuesPayload []) "123" "A" Sample.empty_world =
        (inr (ErrorPayload msg, 500), w1) ∧
      (msg = "Azure permissions issue" ∨
       msg = "New file cannot be created in Azure") ∧
      (msg = "Azure permissions issue" ↔
       ∃ a b, str_exn e = a +:+ "Authentication" +:+ b).
Proof.
  eexists _, _. split; [vm_compute; reflexivity|].
  eapply archiver_error_text. vm_compute; reflexivity.
Defined.

Lemma missing_storage_credential_witness :
  "container_name" ∈
    ["account_url"; "account_name"; "account_key"; "container_name"] ∧
  delete "container_name" Sample.azure_auth !! "container_name" = None ∧
  upload_csv_to_azure (Sample.env []) (delete "container_name" Sample.azure_auth)
    "T" (IssuesPayload []) "123" "A" Sample.empty_world =
    (inr (ErrorPayload "New file cannot be created in Azure", 500),
     Sample.empty_world).
Proof.
  assert (Hin : "container_name" ∈
            ["account_url"; "account_name"; "account_key"; "container_name"])
    by (by repeat constructor).
  assert (Hnone :
            delete "container_name" Sample.azure_auth !! "container_name" = None)
    by apply lookup_delete_eq.
  split_and!; [exact Hin | exact Hnone |].
  exact (missing_storage_credential (Sample.env [])
           (delete "container_name" Sample.azure_auth) "T" (IssuesPayload [])
           "123" "A" Sample.empty_world "container_name" Hin Hnone).
Defined.

Lemma collision_error_text_witness :
  Sample.azure_auth !! "account_url" = Some "https://store.example" ∧
  Sample.azure_auth !! "account_name" = Some "acct" ∧
  Sample.azure_auth !! "account_key" = Some "key" ∧
  Sample.azure_auth !! "container_name" = Some "exports" ∧
  blob_client (Sample.env []) "https://store.example" "acct" "key" "exports"
    = None ∧
  blob_fault (Sample.env []) (blob_name_of "T" "A" "123") = None ∧
  blobs Sample.taken_world !! blob_name_of "T" "A" "123" = Some "old" ∧
  ∃ w',
    upload_csv_to_azure (Sample.env []) Sample.azure_auth "T"
      (IssuesPayload []) "123" "A" Sample.taken_world =
      (inr (ErrorPayload "New file cannot be created in Azure", 500), w') ∧
    blobs w' = blobs Sample.taken_world ∧
    calls w' = calls Sample.taken_world ++
      [UploadBlob (blob_name_of "T" "A" "123") (Csv.csv_content []) false].
Proof.
  assert (Ha : Sample.azure_auth !! "account_url" =
               Some "https://store.example") by (vm_compute; reflexivity).
  assert (Hb : Sample.azure_auth !! "account_name" = Some "acct")
    by (vm_compute; reflexivity).
  assert (Hc : Sample.azure_auth !! "account_key" = Some "key")
    by (vm_compute; reflexivity).
  assert (Hd : Sample.azure_auth !! "container_name" = Some "exports")
    by (vm_compute; reflexivity).
  assert (Htaken : blobs Sample.taken_world !! blob_name_of "T" "A" "123" =
                   Some "old") by (vm_compute; reflexivity).
  split_and!; [exact Ha | exact Hb | exact Hc | exact Hd | reflexivity
              | reflexivity | exact Htaken |].
  exact (collision_error_text (Sample.env []) Sample.azure_auth "T" [] "123"
           "A" Sample.taken_world _ _ _ _ "old" Ha Hb Hc Hd eq_refl eq_refl
           Htaken).
Defined.

Lemma archive_twice_witness :
  ∃ r w1,
    upload_csv_to_azure (Sample.env []) Sample.azure_auth "T"
      (IssuesPayload [Sample.plain_record "a,b" ""]) "123" "A"
      Sample.empty_world = (inr (r, 200), w1) ∧
    blobs w1 !! blob_name_of "T" "A" "123" =
      Some (Csv.csv_content [Sample.plain_record "a,b" ""]) ∧
    ∀ E' csv_data',
      ∃ msg w2,
        upload_csv_to_azure E' Sample.azure_auth "T" csv_data' "123" "A" w1 =
          (inr (ErrorPayload msg, 500), w2) ∧
        blobs w2 = blobs w1.
Proof.
  eexists _, _. split; [vm_compute; reflexivity|].
  eapply (archive_twice (Sample.env []) Sample.azure_auth "T"
            [Sample.plain_record "a,b" ""] "123" "A" Sample.empty_world).
  vm_compute; reflexivity.
Defined.

Lemma process_issues_outcomes_witness :
  ∃ p code w',
    process_ref (Sample.env []) Sample.jira_auth Sample.azure_auth
      Sample.queue_auth 30 50 "T" "123" "A" Sample.empty_world =
      (inr (p, code), w') ∧
    ((p = ErrorPayload "Unable to login to JIRA" ∧ code = 401) ∨
     (p = ErrorPayload "No tickets found" ∧ code = 404) ∨
     ((p = ErrorPayload "Azure permissions issue" ∨
       p = ErrorPayload "New file cannot be created in Azure") ∧
      code = 500) ∨
     (p = SuccessPayload ("T" +:+ "/interactions/incidents/jira") ∧
      code = 200)).
Proof.
  eexists _, _, _. split; [vm_compute; reflexivity|].
  eapply (process_issues_outcomes Ref.epoch_of Ref.start_date_ymd
            Ref.json_dumps (Sample.env []) Sample.jira_auth Sample.azure_auth
            Sample.queue_auth 30 50 "T" "123" "A" Sample.empty_world).
  vm_compute; reflexivity.
Defined.

Lemma notifier_sends_at_most_once_witness :
  ∃ res w',
    send_message_to_queue Ref.json_dumps (Sample.env []) Sample.queue_auth
      (queue_message "T" "A" "123" 0 86400) Sample.empty_world = (res, w') ∧
    blobs w' = blobs Sample.empty_world ∧
    queue w' = [Ref.json_dumps (queue_message "T" "A" "123" 0 86400)] ∧
    calls w' =
      [SendMessage (Ref.json_dumps (queue_message "T" "A" "123" 0 86400))].
Proof.
  eexists _, _. split; [vm_compute; reflexivity|].
  pose proof (notifier_sends_at_most_once Ref.json_dumps (Sample.env [])
                Sample.queue_auth (queue_message "T" "A" "123" 0 86400)
                Sample.empty_world _ _ ltac:(vm_compute; reflexivity))
    as (Hblobs & _ & Hdelivers).
  destruct (Hdelivers "https://queue.example" "acct" "key" "requests"
              ltac:(vm_compute; reflexivity) ltac:(vm_compute; reflexivity)
              ltac:(vm_compute; reflexivity) ltac:(vm_compute; reflexivity)
              eq_refl eq_refl) as [Hcalls Hqueue].
  split_and!; [exact Hblobs | exact Hqueue | exact Hcalls].
Defined.

Lemma missing_queue_credential_witness :
  "queue_name" ∈
    ["account_url"; "account_name"; "account_key"; "queue_name"] ∧
  delete "queue_name" Sample.queue_auth !! "queue_name" = None ∧
  ∃ k,
    k ∈ ["account_url"; "account_name"; "account_key"; "queue_name"] ∧
    delete "queue_name" Sample.queue_auth !! k = None ∧
    send_message_to_queue Ref.json_dumps (Sample.env [])
      (delete "queue_name" Sample.queue_auth)
      (queue_message "T" "A" "123" 0 86400) Sample.empty_world =
      (inr (), print (OutQueueError (KeyError k)) Sample.empty_world).
Proof.
  assert (Hin : "queue_name" ∈
            ["account_url"; "account_name"; "account_key"; "queue_name"])
    by (by repeat constructor).
  assert (Hnone : delete "queue_name" Sample.queue_auth !! "queue_name" = None)
    by apply lookup_delete_eq.
  split_and!; [exact Hin | exact Hnone |].
  exact (missing_queue_credential Ref.json_dumps (Sample.env [])
           (delete "queue_name" Sample.queue_auth)
           (queue_message "T" "A" "123" 0 86400) Sample.empty_world
           "queue_name" Hin Hnone).
Defined.

Lemma rerun_is_rejected_witness :
  ∃ p w1,
    process_ref three_tickets Sample.jira_auth Sample.azure_auth
      Sample.queue_auth 30 50 "T" "123" "A" Sample.empty_world =
      (inr (p, 200), w1) ∧
    ∀ E' jira_auth' queue_auth' total_days' max_issues' p' code' w2,
      process_ref E' jira_auth' Sample.azure_auth queue_auth' total_days'
        max_issues' "T" "123" "A" w1 = (inr (p', code'), w2) →
      code' ≠ 200 ∧
      blobs w2 = blobs w1 ∧ queue w2 = queue w1 ∧
      Spec.sends (calls w2) = Spec.sends (calls w1).
Proof.
  eexists _, _. split; [vm_compute; reflexivity|].
  eapply (rerun_is_rejected Ref.epoch_of Ref.start_date_ymd Ref.json_dumps
            three_tickets Sample.jira_auth Sample.azure_auth Sample.queue_auth
            30 50 "T" "123" "A" Sample.empty_world).
  vm_compute; reflexivity.
Defined.

Lemma path_determines_run_witness :
  Spec.hyphen_free "3fa85f" ∧
  blob_name_of "12345" "3fa85f" "1705314600" =
    blob_name_of "12345" "3fa85f" "1705314600" ∧
  "3fa85f" = "3fa85f" ∧ "1705314600" = "1705314600".
Proof.
  assert (Hfree : Spec.hyphen_free "3fa85f") by reflexivity.
  split_and!; [exact Hfree | reflexivity |..];
    apply (proj1 path_determines_run "12345" "3fa85f" "1705314600" "3fa85f"
             "1705314600" Hfree Hfree eq_refl).
Defined.

Lemma csv_content_distinguishes_witness :
  [Sample.plain_record "a,b" ""] ≠ [Sample.plain_record "a" "b"] ∧
  Csv.csv_content [Sample.plain_record "a,b" ""] ≠
    Csv.csv_content [Sample.plain_record "a" "b"].
Proof.
  assert (Hne : [Sample.plain_record "a,b" ""] ≠ [Sample.plain_record "a" "b"])
    by discriminate.
  split; [exact Hne|].
  exact (csv_content_distinguishes _ _ Hne).
Defined.

Lemma entries_are_quoted_witness :
  ∃ recs code w',
    fetch_ref three_tickets Sample.jira_auth 30 50 Sample.empty_world =
      (inr (IssuesPayload recs, code), w') ∧
    ∃ issues,
      search_ref three_tickets Sample.jira_auth 30 50 Sample.empty_world =
        (inr issues, w') ∧
      Forall2 (λ issue r,
        comments issue ≠ [] →
        Csv.needs_quotes (entries r) = true ∧
        Csv.write_field (entries r) =
          String Str.dquote (Csv.escape (entries r) +:+ String Str.dquote ""))
        issues recs.
Proof.
  eexists _, _, _. split; [vm_compute; reflexivity|].
  eapply (entries_are_quoted Ref.epoch_of Ref.start_date_ymd).
  vm_compute; reflexivity.
Defined.
